(** * Map_Province: the submission dashboard of [src/Map_Province.py]

    The script loads an uploaded table, derives one coordinate pair per row,
    filters by province and renders a timeline, a point map and a report of
    the rows without coordinates.  This development embeds the script as
    executable Rocq functions and states its specification over them.

    Modelling conventions.
    - A pandas cell is a [cell]; NaN, None, NaT and pd.NA are the one null
      [NA].  Floats are idealised as rationals ([Q]), so that an arithmetic
      mean is exact.
    - A row handed to [DataFrame.apply(axis=1)] is a [Series]: a finite map
      from column labels to cells.  A [DataFrame] is its list of column
      labels together with its rows.  Labels are unique, as [read_csv] and
      [read_excel] rename repeated headers.
    - A Python exception is [Raise]; [st.stop()] is [Stop].  A script is a
      value of [M]: the elements written to the page so far, and how the
      run went on.
    - The widgets (plotly, pydeck, the data grid) are recorded with the data
      they are given; what they draw is not modelled. *)

From Stdlib Require Import QArith ZArith Lia Sorted.
From stdpp Require Import gmap strings list pretty.

Local Open Scope string_scope.

(** ** Cells, rows and tables *)

(** A parsed date/time, without time zone: the calendar day ([.dt.date], as
    the day's proleptic ordinal, so that the order on days is the order on
    [Z]) and the nanoseconds since midnight. *)
Record Timestamp := mkTimestamp { date : Z; time_ns : Z }.

Inductive cell :=
| NA
| Num (q : Q)
| Str (s : string)
| Ts (t : Timestamp).

(** [pd.isna] and [pd.notna] on a scalar. *)
Definition isna (c : cell) : bool :=
  match c with NA => true | _ => false end.

Definition notna (c : cell) : bool := negb (isna c).

(** The elementwise [==] of pandas: a null equals nothing, not even a null;
    values of different kinds are different. *)
Definition cell_eqb (a b : cell) : bool :=
  match a, b with
  | Num p, Num q => Qeq_bool p q
  | Str s, Str t => bool_decide (s = t)
  | Ts s, Ts t => (date s =? date t)%Z && (time_ns s =? time_ns t)%Z
  | _, _ => false
  end.

Definition Series := gmap string cell.

(** [row.get(k)]: the value, or None when the label is absent. *)
Definition row_get (row : Series) (k : string) : cell :=
  default NA (row !! k).

Record DataFrame := mkDataFrame { columns : list string; rows : list Series }.

(** [pd.DataFrame()] *)
Definition empty_frame : DataFrame := mkDataFrame [] [].

(** [df.empty]: some axis has length 0. *)
Definition empty (df : DataFrame) : bool :=
  match columns df, rows df with
  | [], _ | _, [] => true
  | _, _ => false
  end.

Definition has_column (k : string) (df : DataFrame) : bool :=
  bool_decide (k ∈ columns df).

(** ** Exceptions and the page *)

Inductive exn :=
| KeyError (k : string)
| ValueError (msg : string)
| TypeError (msg : string)
| AttributeError (msg : string).

Inductive outcome (A : Type) :=
| Done (a : A)
| Stop
| Raise (e : exn).
Arguments Done {A} a.
Arguments Stop {A}.
Arguments Raise {A} e.

#[global] Instance outcome_ret : MRet outcome := λ A a, Done a.
#[global] Instance outcome_bind : MBind outcome := λ A B f m,
  match m with
  | Done a => f a
  | Stop => Stop
  | Raise e => Raise e
  end.

Record ViewState := mkViewState
  { latitude : cell; longitude : cell; zoom : Z; pitch : Z }.

Inductive element :=
| st_title (body : string)
| st_sidebar_header (body : string)
| st_sidebar_selectbox (label : string) (options : list cell)
| st_header (body : string)
| st_markdown (body : string)
| st_warning (body : string)
| st_error (body : string)
| st_info (body : string)
| st_success (body : string)
| st_plotly_chart (times_by_date : list (Z * nat))
| st_pydeck_chart (map_df : DataFrame) (view_state : ViewState)
| st_dataframe (data : DataFrame)
| st_download_button (label : string) (data : DataFrame) (file_name : string).

(** A script: what it wrote to the page, and how it ended. *)
Definition M (A : Type) : Type := (list element * outcome A)%type.

#[global] Instance M_ret : MRet M := λ A a, ([], Done a).
#[global] Instance M_bind : MBind M := λ A B f m,
  match m with
  | (page, Done a) => let '(page', o) := f a in ((page ++ page')%list, o)
  | (page, Stop) => (page, Stop)
  | (page, Raise e) => (page, Raise e)
  end.

Definition emit (e : element) : M unit := ([e], Done tt).
Definition st_stop {A} : M A := ([], Stop).
Definition lift {A} (o : outcome A) : M A := ([], o).

(** ** Column access *)

(** [df[k]]: the column as a list of cells, KeyError when the label is
    absent. *)
Definition column (k : string) (df : DataFrame) : outcome (list cell) :=
  if has_column k df then Done (map (λ row, row_get row k) (rows df))
  else Raise (KeyError k).

(** [df[mask]] for a boolean mask aligned with the rows. *)
Fixpoint mask_rows (mask : list bool) (l : list Series) : list Series :=
  match mask, l with
  | b :: mask', row :: l' =>
      if b then row :: mask_rows mask' l' else mask_rows mask' l'
  | _, _ => []
  end.

Definition getitem_mask (mask : list bool) (df : DataFrame) : DataFrame :=
  mkDataFrame (columns df) (mask_rows mask (rows df)).

(** [df.dropna(subset=labels)]: keeps the rows with no null under any of the
    labels; KeyError when a label is absent. *)
Definition dropna (subset : list string) (df : DataFrame) : outcome DataFrame :=
  match List.find (λ k, negb (has_column k df)) subset with
  | Some k => Raise (KeyError k)
  | None =>
      Done (mkDataFrame (columns df)
              (List.filter (λ row, forallb (λ k, notna (row_get row k)) subset)
                 (rows df)))
  end.

(** [row[k]]: KeyError when the label is absent. *)
Definition getitem (row : Series) (k : string) : outcome cell :=
  match row !! k with
  | Some c => Done c
  | None => Raise (KeyError k)
  end.

(** [df[k] = f(df[k])] for a label the frame has: every row gets the new
    value under [k], the labels do not change. *)
Definition assign (k : string) (f : cell → cell) (df : DataFrame) : DataFrame :=
  mkDataFrame (columns df)
    (map (λ row, <[k := f (row_get row k)]> row) (rows df)).

(** ** The loader *)

(** What [df.apply(f, axis=1, result_type="expand")] returns before it is
    relabelled: a frame of [width] positional columns.  On a frame with rows
    the tuples returned by [f] are spread over two columns.  On a frame with
    no row pandas does not call [f]: [FrameApply.apply_empty_result] returns
    [self.obj.copy()] for every [result_type] but "reduce" and None, so the
    result is as wide as the frame itself. *)
Record Expanded := mkExpanded { width : nat; body : list (list cell) }.

Definition apply_expand (f : Series → outcome (cell * cell)) (df : DataFrame)
  : outcome Expanded :=
  match rows df with
  | [] => Done (mkExpanded (length (columns df)) [])
  | _ =>
      body ← mapM (λ row, '(a, b) ← f row; mret [a; b]) (rows df);
      mret (mkExpanded 2 body)
  end.

(** [coords.columns = labels]: ValueError unless there is one label per
    column. *)
Definition set_columns (labels : list string) (e : Expanded) : outcome DataFrame :=
  if (length labels =? width e)%nat then
    Done (mkDataFrame labels
            (map (λ cells, list_to_map (zip labels cells)) (body e)))
  else Raise (ValueError "Length mismatch").

(** [pd.concat([a, b], axis=1)] of two frames over the same row index: the
    labels of [b] follow those of [a], and row [i] carries the cells of
    both.  A row has one cell per label here: under a label that both
    frames have, which pandas would keep twice, the cell of [b] is the one
    read. *)
Definition concat_axis1 (a b : DataFrame) : DataFrame :=
  mkDataFrame (columns a ++ columns b)%list
    (zip_with (λ ra rb : Series, rb ∪ ra) (rows a) (rows b)).

(** Lines 45 to 51: the pair A of the row when both of its cells are
    non-null, else the pair B when both of its cells are, else two nulls. *)
Definition pick_coordinates (row : Series) : outcome (cell * cell) :=
  if notna (row_get row "Geopoint1-Latitude")
     && notna (row_get row "Geopoint1-Longitude") then
    lat ← getitem row "Geopoint1-Latitude";
    lon ← getitem row "Geopoint1-Longitude";
    mret (lat, lon)
  else if notna (row_get row "geopoint-Latitude")
          && notna (row_get row "geopoint-Longitude") then
    lat ← getitem row "geopoint-Latitude";
    lon ← getitem row "geopoint-Longitude";
    mret (lat, lon)
  else mret (NA, NA).

Section Dashboard.

(** The date parser behind [pd.to_datetime] for a value that is neither null
    nor a date/time already: [None] when the value cannot be read. *)
Variable parse_datetime : cell → option Timestamp.

(** [pd.to_datetime(_, errors="coerce")] on one value. *)
Definition to_datetime (c : cell) : cell :=
  match c with
  | NA => NA
  | Ts t => Ts t
  | _ => match parse_datetime c with Some t => Ts t | None => NA end
  end.

(** Lines 24 to 57, from the parsed table on. *)
Definition load_data (file : DataFrame) : M DataFrame :=
  let df := file in
  if negb (has_column "Province" df) then
    emit (st_error "The file must contain a 'Province' column.");;
    mret empty_frame
  else if negb (has_column "SubmissionDate" df) then
    emit (st_error "The file must contain a 'SubmissionDate' column.");;
    mret empty_frame
  else
    let df := assign "SubmissionDate" to_datetime df in
    coords ← lift (apply_expand pick_coordinates df);
    coords ← lift (set_columns ["lat"; "lon"] coords);
    mret (concat_axis1 df coords).

(** What loading makes of one row: [row'] is [row] with its date parsed
    (line 42) and the two cells of [pick_coordinates] under the labels lat
    and lon (lines 53 to 55). *)
Definition loads_to (row row' : Series) : Prop :=
  let stamped :=
    <["SubmissionDate" := to_datetime (row_get row "SubmissionDate")]> row in
  ∃ lat lon,
    pick_coordinates stamped = Done (lat, lon)
    ∧ row' = <["lat" := lat]> (<["lon" := lon]> stamped).

(** ** The province filter *)

(** [x < y] of Python: TypeError between values of different kinds. *)
Definition cell_ltb (a b : cell) : outcome bool :=
  match a, b with
  | Num p, Num q => Done (negb (Qle_bool q p))
  | Str s, Str t => Done (String.ltb s t)
  | Ts s, Ts t =>
      Done ((date s <? date t)%Z
            || ((date s =? date t)%Z && (time_ns s <? time_ns t)%Z))
  | _, _ => Raise (TypeError "'<' not supported")
  end.

Fixpoint insort (x : cell) (l : list cell) : outcome (list cell) :=
  match l with
  | [] => mret [x]
  | y :: l' =>
      lt ← cell_ltb x y;
      if lt : bool then mret (x :: y :: l')
      else l'' ← insort x l'; mret (y :: l'')
  end.

(** [sorted(l)] *)
Fixpoint sorted (l : list cell) : outcome (list cell) :=
  match l with
  | [] => mret []
  | x :: l' => s ← sorted l'; insort x s
  end.

(** [Series.unique()]: the values in order of first appearance. *)
Fixpoint unique (l : list cell) : list cell :=
  match l with
  | [] => []
  | x :: l' => x :: List.filter (λ y, negb (cell_eqb x y)) (unique l')
  end.

(** Line 65: the sentinel, then the provinces of the table in order. *)
Definition province_list (df : DataFrame) : outcome (list cell) :=
  col ← column "Province" df;
  names ← sorted (unique (List.filter notna col));
  mret (Str "All Provinces" :: names).

(** [st.sidebar.selectbox]: shows the options and returns the one the user
    chose, the first one until the user chooses. *)
Definition sidebar_selectbox (label : string) (options : list cell) (choice : nat)
  : M cell :=
  ([st_sidebar_selectbox label options],
   Done (nth choice options (hd NA options))).

(** Lines 68 to 70. *)
Definition filter_province (selected_province : cell) (df : DataFrame)
  : outcome DataFrame :=
  let filtered := df in
  if negb (cell_eqb selected_province (Str "All Provinces")) then
    col ← column "Province" filtered;
    mret (getitem_mask (map (λ c, cell_eqb c selected_province) col) filtered)
  else mret filtered.

(** ** Rows with and without coordinates *)

(** Line 73: the rows for the map. *)
Definition valid_coords_of (filtered : DataFrame) : outcome DataFrame :=
  dropna ["lat"; "lon"] filtered.

(** Line 74: the rows for the report. *)
Definition missing_coords_of (filtered : DataFrame) : outcome DataFrame :=
  lat ← column "lat" filtered;
  lon ← column "lon" filtered;
  mret (getitem_mask (zip_with orb (map isna lat) (map isna lon)) filtered).

(** ** The timeline *)

(** [.dt.date] on one value of a column without nulls: the accessor exists
    on date/time columns only. *)
Definition dt_date (c : cell) : outcome Z :=
  match c with
  | Ts t => Done (date t)
  | _ => Raise (AttributeError "Can only use .dt accessor with datetimelike values")
  end.

(** One more record on day [d], in a list of (day, count) kept in
    increasing order of day. *)
Fixpoint bump (d : Z) (l : list (Z * nat)) : list (Z * nat) :=
  match l with
  | [] => [(d, 1%nat)]
  | (k, c) :: l' =>
      if (d <? k)%Z then (d, 1%nat) :: l
      else if (d =? k)%Z then (k, S c) :: l'
      else (k, c) :: bump d l'
  end.

(** [groupby(key).size().reset_index(name="count")]: one line per distinct
    key, in increasing order of key, with the number of rows of that key. *)
Definition groupby_size (keys : list Z) : list (Z * nat) :=
  foldr bump [] keys.

(** Lines 77 to 85. *)
Definition timeline (filtered : DataFrame) : M unit :=
  emit (st_header "Submissions Over Time");;
  col ← lift (column "SubmissionDate" filtered);
  if existsb notna col then
    times ← lift (dropna ["SubmissionDate"] filtered);
    col ← lift (column "SubmissionDate" times);
    date_only ← lift (mapM dt_date col);
    emit (st_plotly_chart (groupby_size date_only))
  else emit (st_info "No valid SubmissionDate values found.").

(** ** The map *)

(** The sum behind [Series.mean()] on a column of Python objects: nulls are
    skipped, and a value that is not a number is a TypeError (of
    [nanops._ensure_numeric] for text). *)
Fixpoint nansum (l : list cell) : outcome Q :=
  match l with
  | [] => mret 0%Q
  | NA :: l' => nansum l'
  | Num q :: l' => s ← nansum l'; mret (q + s)%Q
  | _ :: _ => Raise (TypeError "Could not convert to numeric")
  end.

(** [Series.mean()]: null on a column without values. *)
Definition mean (l : list cell) : outcome cell :=
  total ← nansum l;
  mret (match length (List.filter notna l) with
        | O => NA
        | S _ as count => Num (total / inject_Z (Z.of_nat count))%Q
        end).

(** Lines 90 to 153: the deck is recorded with its data and its view. *)
Definition map_of_submissions (valid_coords : DataFrame) : M unit :=
  emit (st_header "Map of Submissions");;
  if empty valid_coords then
    emit (st_info "No valid GPS coordinates found for the selected province.")
  else
    lat ← lift (column "lat" valid_coords);
    center_lat ← lift (mean lat);
    lon ← lift (column "lon" valid_coords);
    center_lon ← lift (mean lon);
    let map_df := valid_coords in
    let view_state := mkViewState center_lat center_lon 6 0 in
    emit (st_pydeck_chart map_df view_state).

(** The layer's [get_position='[lon, lat]']: one point per row of its
    data. *)
Definition positions (map_df : DataFrame) : list (cell * cell) :=
  map (λ row, (row_get row "lon", row_get row "lat")) (rows map_df).

(** ** The report of rows without coordinates *)

(** Lines 157 to 171: the download is recorded with the table it exports. *)
Definition missing_report (missing_coords : DataFrame) : M unit :=
  emit (st_header "Records with No GPS Points");;
  if empty missing_coords then emit (st_success "All records have GPS Points.")
  else
    emit (st_warning (pretty (length (rows missing_coords))
                      +:+ " records are missing GPS Points."));;
    emit (st_dataframe missing_coords);;
    emit (st_download_button "Download Records Missing GPS Points (CSV)"
            missing_coords "missing_gps.csv").

(** ** The script *)

(** One run of the script: [uploaded_file] is the table parsed from the
    upload, if any; [choice] is the position the user chose in the province
    selector. *)
Definition app (uploaded_file : option DataFrame) (choice : nat) : M unit :=
  emit (st_title "Submission Map & Timeline");;
  emit (st_sidebar_header "Upload Data File");;
  match uploaded_file with
  | None =>
      emit (st_warning "Please upload a CSV or Excel file to begin.");;
      st_stop
  | Some file =>
      df ← load_data file;
      if empty df then st_stop
      else
        options ← lift (province_list df);
        selected_province ← sidebar_selectbox "Select Province" options choice;
        filtered ← lift (filter_province selected_province df);
        valid_coords ← lift (valid_coords_of filtered);
        missing_coords ← lift (missing_coords_of filtered);
        timeline filtered;;
        emit (st_markdown "---");;
        map_of_submissions valid_coords;;
        missing_report missing_coords
  end.

(** ** Sample tables *)

(** A date parser that reads two spellings, for the examples. *)
Definition sample_parser (c : cell) : option Timestamp :=
  match c with
  | Str "2024-01-01" => Some (mkTimestamp 738886 0)
  | Str "2024-01-02 10:00" => Some (mkTimestamp 738887 36000000000000)
  | _ => None
  end.

(** A row written as its (label, cell) pairs. *)
Definition record (l : list (string * cell)) : Series := list_to_map l.

(** [df.values.tolist()]: the cells of each row, in the order of the
    labels. *)
Definition values (df : DataFrame) : list (list cell) :=
  map (λ row, map (row_get row) (columns df)) (rows df).

(** The table of the specification's example: a record of province A with
    pair A, a record of province B with a longitude of pair B only. *)
Definition example_table : DataFrame :=
  mkDataFrame
    ["Province"; "SubmissionDate"; "Geopoint1-Latitude"; "Geopoint1-Longitude";
     "geopoint-Latitude"; "geopoint-Longitude"]
    [record [("Province", Str "A"); ("SubmissionDate", Str "2024-01-01");
             ("Geopoint1-Latitude", Num 1); ("Geopoint1-Longitude", Num 2);
             ("geopoint-Latitude", NA); ("geopoint-Longitude", NA)];
     record [("Province", Str "B"); ("SubmissionDate", NA);
             ("Geopoint1-Latitude", NA); ("Geopoint1-Longitude", NA);
             ("geopoint-Latitude", NA); ("geopoint-Longitude", Num 3)]].

(** The same table once loaded with [sample_parser]. *)
Definition loaded_row_A : Series :=
  record [("Province", Str "A");
          ("SubmissionDate", Ts (mkTimestamp 738886 0));
          ("Geopoint1-Latitude", Num 1); ("Geopoint1-Longitude", Num 2);
          ("geopoint-Latitude", NA); ("geopoint-Longitude", NA);
          ("lat", Num 1); ("lon", Num 2)].

Definition loaded_row_B : Series :=
  record [("Province", Str "B"); ("SubmissionDate", NA);
          ("Geopoint1-Latitude", NA); ("Geopoint1-Longitude", NA);
          ("geopoint-Latitude", NA); ("geopoint-Longitude", Num 3);
          ("lat", NA); ("lon", NA)].

Definition loaded_example : DataFrame :=
  mkDataFrame
    ["Province"; "SubmissionDate"; "Geopoint1-Latitude"; "Geopoint1-Longitude";
     "geopoint-Latitude"; "geopoint-Longitude"; "lat"; "lon"]
    [loaded_row_A; loaded_row_B].

(** Two located records, as the map receives them. *)
Definition two_points : DataFrame :=
  mkDataFrame ["Province"; "SubmissionDate"; "lat"; "lon"]
    [record [("Province", Str "A"); ("SubmissionDate", NA);
             ("lat", Num 1); ("lon", Num 10)];
     record [("Province", Str "A"); ("SubmissionDate", NA);
             ("lat", Num 2); ("lon", Num 20)]].

(** A file with an empty Province cell: the line [,2024-01-01] under the
    header [Province,SubmissionDate]. *)
Definition null_province : DataFrame :=
  mkDataFrame ["Province"; "SubmissionDate"]
    [record [("Province", NA); ("SubmissionDate", Str "2024-01-01")]].

Definition loaded_null_province : DataFrame :=
  mkDataFrame ["Province"; "SubmissionDate"; "lat"; "lon"]
    [record [("Province", NA); ("SubmissionDate", Ts (mkTimestamp 738886 0));
             ("lat", NA); ("lon", NA)]].

(** A file with a header line and no data row, without and with the
    Province column. *)
Definition header_lacking_province : DataFrame :=
  mkDataFrame ["KEY"; "SubmissionDate"] [].

Definition header_only : DataFrame :=
  mkDataFrame ["KEY"; "SubmissionDate"; "Province"] [].

(** A file whose coordinate cells are text: the line
    [A,,abc,def] under the header
    [Province,SubmissionDate,Geopoint1-Latitude,Geopoint1-Longitude]. *)
Definition text_coordinates : DataFrame :=
  mkDataFrame
    ["Province"; "SubmissionDate"; "Geopoint1-Latitude"; "Geopoint1-Longitude"]
    [record [("Province", Str "A"); ("SubmissionDate", NA);
             ("Geopoint1-Latitude", Str "abc");
             ("Geopoint1-Longitude", Str "def")]].

(** The count that a list of (day, count) lines gives to day [d]. *)
Definition count_on (d : Z) (l : list (Z * nat)) : nat :=
  list_sum (map snd (List.filter (λ p, (p.1 =? d)%Z) l)).

(** Lines in increasing order of day, one line per day. *)
Definition chronological (l : list (Z * nat)) : Prop :=
  StronglySorted (λ p q, (p.1 < q.1)%Z) l.

(** A cell that [Series.mean()] accepts. *)
Definition numeric_or_null (c : cell) : Prop := c = NA ∨ ∃ q, c = Num q.

(** A script that runs to its end. *)
Definition completes (m : M unit) : Prop := ∃ page, m = (page, Done tt).

(** The kind of a value, for Python's comparison: values of different kinds
    do not compare. *)
Definition kind (c : cell) : nat :=
  match c with NA => 0 | Num _ => 1 | Str _ => 2 | Ts _ => 3 end.

(** A sheet whose Province cells are a name and a number, once loaded. *)
Definition mixed_provinces : DataFrame :=
  mkDataFrame ["Province"; "SubmissionDate"]
    [record [("Province", Str "A"); ("SubmissionDate", NA)];
     record [("Province", Num 7); ("SubmissionDate", NA)]].

Definition loaded_mixed_provinces : DataFrame :=
  mkDataFrame ["Province"; "SubmissionDate"; "lat"; "lon"]
    [record [("Province", Str "A"); ("SubmissionDate", NA);
             ("lat", NA); ("lon", NA)];
     record [("Province", Num 7); ("SubmissionDate", NA);
             ("lat", NA); ("lon", NA)]].



(** A header line with exactly the two required columns and no data row. *)
Definition two_columns_no_row : DataFrame :=
  mkDataFrame ["Province"; "SubmissionDate"] [].

(** A file without the SubmissionDate column. *)
Definition lacking_date : DataFrame :=
  mkDataFrame ["Province"; "KEY"]
    [record [("Province", Str "A"); ("KEY", Str "k1")]].

(** A located record whose coordinates are text, as the map receives it. *)
Definition text_point : Series :=
  record [("Province", Str "A"); ("SubmissionDate", NA);
          ("lat", Str "abc"); ("lon", Str "def")].

Definition text_points : DataFrame :=
  mkDataFrame ["Province"; "SubmissionDate"; "lat"; "lon"] [text_point].

(** The loaded example with its two records in the other order. *)
Definition loaded_example_reversed : DataFrame :=
  mkDataFrame (columns loaded_example) [loaded_row_B; loaded_row_A].

(** * Properties *)

(** ** The monads and the column operations *)

Lemma mapM_Done {A B} (f : A → outcome B) (g : A → B) (l : list A) :
  (∀ x, x ∈ l → f x = Done (g x)) → mapM f l = Done (map g l).
Proof.
  induction l as [|x l IH]; intros Hf; [reflexivity|].
  cbn. rewrite (Hf x) by left. cbn.
  rewrite IH by (intros y Hy; apply Hf; now right). reflexivity.
Qed.

Lemma mask_rows_filter (p : Series → bool) (l : list Series) :
  mask_rows (map p l) l = List.filter p l.
Proof.
  induction l as [|row l IH]; [reflexivity|].
  cbn. rewrite IH. reflexivity.
Qed.

Lemma has_column_true k df : has_column k df = true ↔ k ∈ columns df.
Proof. unfold has_column. apply bool_decide_eq_true. Qed.

Lemma not_elem_of_labels (k : string) (labels : list string) :
  bool_decide (k ∈ labels) = false → k ∉ labels.
Proof. apply bool_decide_eq_false. Qed.

Lemma column_Done k df :
  has_column k df = true →
  column k df = Done (map (λ row, row_get row k) (rows df)).
Proof. intros H. unfold column. now rewrite H. Qed.

Lemma elem_of_filter (p : Series → bool) (l : list Series) row :
  row ∈ List.filter p l ↔ row ∈ l ∧ p row = true.
Proof. rewrite !list_elem_of_In. apply filter_In. Qed.

(** ** The coordinates of a row *)

Lemma getitem_notna row k :
  notna (row_get row k) = true → getitem row k = Done (row_get row k).
Proof.
  unfold getitem, row_get. destruct (row !! k); [reflexivity|discriminate].
Qed.

(** [pick_coordinates] never raises: it reads a label with [row[k]] only
    after [row.get(k)] found a value there. *)
Lemma pick_coordinates_Done row :
  pick_coordinates row =
  Done (if notna (row_get row "Geopoint1-Latitude")
           && notna (row_get row "Geopoint1-Longitude")
        then (row_get row "Geopoint1-Latitude", row_get row "Geopoint1-Longitude")
        else if notna (row_get row "geopoint-Latitude")
                && notna (row_get row "geopoint-Longitude")
        then (row_get row "geopoint-Latitude", row_get row "geopoint-Longitude")
        else (NA, NA)).
Proof.
  unfold pick_coordinates.
  destruct (notna (row_get row "Geopoint1-Latitude")) eqn:A1;
    destruct (notna (row_get row "Geopoint1-Longitude")) eqn:A2; cbn [andb];
    try (rewrite !getitem_notna by assumption; reflexivity);
    destruct (notna (row_get row "geopoint-Latitude")) eqn:B1;
    destruct (notna (row_get row "geopoint-Longitude")) eqn:B2; cbn [andb];
    try (rewrite !getitem_notna by assumption; reflexivity); reflexivity.
Qed.

(** ** The loader *)

Lemma to_datetime_kind c : to_datetime c = NA ∨ ∃ t, to_datetime c = Ts t.
Proof.
  destruct c as [|q|s|t]; cbn; eauto;
    destruct (parse_datetime _); eauto.
Qed.

Lemma load_data_missing_province file :
  has_column "Province" file = false →
  load_data file =
  ([st_error "The file must contain a 'Province' column."], Done empty_frame).
Proof. intros H. unfold load_data. rewrite H. reflexivity. Qed.

Lemma load_data_missing_date file :
  has_column "Province" file = true →
  has_column "SubmissionDate" file = false →
  load_data file =
  ([st_error "The file must contain a 'SubmissionDate' column."],
   Done empty_frame).
Proof. intros H1 H2. unfold load_data. rewrite H1, H2. reflexivity. Qed.

Lemma bind_lift_Done {A B} (a : A) (f : A → M B) : lift (Done a) ≫= f = f a.
Proof. unfold lift, mbind, M_bind. destruct (f a). reflexivity. Qed.

Lemma bind_lift_Raise {A B} e (f : A → M B) :
  lift (Raise e) ≫= f = ([], Raise e).
Proof. reflexivity. Qed.

Lemma set_columns_Done labels e :
  length labels = width e →
  set_columns labels e =
  Done (mkDataFrame labels
          (map (λ cells, list_to_map (zip labels cells)) (body e))).
Proof. intros H. unfold set_columns. now rewrite H, Nat.eqb_refl. Qed.

Lemma set_columns_Raise labels e :
  length labels ≠ width e →
  set_columns labels e = Raise (ValueError "Length mismatch").
Proof.
  intros H. unfold set_columns.
  destruct (Nat.eqb_spec (length labels) (width e)); [contradiction|reflexivity].
Qed.

Lemma apply_expand_no_row f df :
  rows df = [] → apply_expand f df = Done (mkExpanded (length (columns df)) []).
Proof. intros H. unfold apply_expand. now rewrite H. Qed.

Lemma apply_expand_rows f g df :
  rows df ≠ [] →
  (∀ row, row ∈ rows df → f row = Done (g row)) →
  apply_expand f df =
  Done (mkExpanded 2 (map (λ row, [fst (g row); snd (g row)]) (rows df))).
Proof.
  intros Hne Hf. unfold apply_expand.
  destruct (rows df) as [|row0 l] eqn:E; [contradiction|].
  rewrite (mapM_Done _ (λ row, [fst (g row); snd (g row)])); [reflexivity|].
  intros row Hrow. rewrite (Hf row Hrow). destruct (g row). reflexivity.
Qed.

Lemma zip_with_map_r {A B C} (h : A → B → C) (g : A → B) l :
  zip_with h l (map g l) = map (λ x, h x (g x)) l.
Proof. induction l; cbn; congruence. Qed.

(** A table with the required labels and no row: [apply] hands the frame
    back, and relabelling it raises unless it has exactly two columns. *)
Lemma load_data_no_row file :
  has_column "Province" file = true →
  has_column "SubmissionDate" file = true →
  rows file = [] →
  length (columns file) ≠ 2%nat →
  load_data file = ([], Raise (ValueError "Length mismatch")).
Proof.
  intros H1 H2 Hrows Hlen. unfold load_data. rewrite H1, H2. cbn [negb].
  rewrite apply_expand_no_row by (cbn; now rewrite Hrows).
  rewrite bind_lift_Done, set_columns_Raise by (cbn; congruence).
  reflexivity.
Qed.

(** With the required labels and a row (or exactly the two required labels),
    loading writes nothing to the page and returns the table row by row. *)
Lemma load_data_rows file :
  has_column "Province" file = true →
  has_column "SubmissionDate" file = true →
  rows file ≠ [] ∨ length (columns file) = 2%nat →
  ∃ df, load_data file = ([], Done df)
        ∧ columns df = (columns file ++ ["lat"; "lon"])%list
        ∧ Forall2 loads_to (rows file) (rows df).
Proof.
  intros H1 H2 Hshape. unfold load_data. rewrite H1, H2. cbn [negb].
  destruct (rows file) as [|row0 l] eqn:Hrows.
  - destruct Hshape as [|Hlen]; [congruence|].
    rewrite apply_expand_no_row by (cbn; now rewrite Hrows).
    rewrite bind_lift_Done, set_columns_Done by (cbn; congruence).
    rewrite bind_lift_Done. eexists. split; [reflexivity|].
    split; [reflexivity|]. cbn. rewrite Hrows. constructor.
  - rewrite <- Hrows. assert (Hne : rows file ≠ []) by congruence.
    clear Hrows row0 l Hshape.
    erewrite apply_expand_rows;
      [| cbn; now destruct (rows file) | intros row _; apply pick_coordinates_Done].
    rewrite bind_lift_Done, set_columns_Done by reflexivity.
    rewrite bind_lift_Done. eexists. split; [reflexivity|].
    split; [reflexivity|].
    cbn [concat_axis1 rows assign body].
    rewrite List.map_map, zip_with_map_r, List.map_map.
    apply Forall2_fmap_r, Forall_Forall2_diag, Forall_forall.
    intros row _. unfold loads_to, compose. cbv beta zeta.
    set (stamped := <["SubmissionDate" := _]> row).
    rewrite pick_coordinates_Done.
    match goal with |- context [Done ?c] => set (p := c) end.
    exists p.1, p.2. split; [now destruct p|]. clearbody p stamped.
    cbn [zip zip_with list_to_map foldr fst snd uncurry].
    unfold Series in *. rewrite <- !insert_union_l, (left_id_L ∅ (∪)).
    reflexivity.
Qed.

(** A table returned by [load_data] is the empty frame of the error path, or
    the input row by row. *)
Lemma load_data_Done file page df :
  load_data file = (page, Done df) →
  (df = empty_frame ∧ page ≠ [])
  ∨ (has_column "Province" file = true
     ∧ has_column "SubmissionDate" file = true
     ∧ page = []
     ∧ columns df = (columns file ++ ["lat"; "lon"])%list
     ∧ Forall2 loads_to (rows file) (rows df)).
Proof.
  intros Hload.
  destruct (has_column "Province" file) eqn:H1.
  2:{ rewrite load_data_missing_province in Hload by assumption.
      injection Hload as <- <-. now left. }
  destruct (has_column "SubmissionDate" file) eqn:H2.
  2:{ rewrite load_data_missing_date in Hload by assumption.
      injection Hload as <- <-. now left. }
  right.
  destruct (decide (rows file = [])) as [Hrows|Hrows];
    [destruct (decide (length (columns file) = 2%nat)) as [Hlen|Hlen]|].
  2:{ rewrite load_data_no_row in Hload by assumption. discriminate. }
  all: destruct (load_data_rows file) as (df' & Hdf' & Hcols & Hall); auto;
    rewrite Hdf' in Hload; injection Hload as <- <-; auto.
Qed.

Lemma row_get_insert row k c : row_get (<[k := c]> row) k = c.
Proof. unfold row_get, Series in *. now rewrite lookup_insert_eq. Qed.

Lemma row_get_insert_ne row k k' c :
  k ≠ k' → row_get (<[k := c]> row) k' = row_get row k'.
Proof. intros H. unfold row_get, Series in *. now rewrite lookup_insert_ne. Qed.

Lemma notna_true c : notna c = true ↔ c ≠ NA.
Proof. destruct c; cbn; split; congruence. Qed.

Lemma notna_false c : notna c = false ↔ c = NA.
Proof. destruct c; cbn; split; congruence. Qed.

(** The pair of a loaded row, read from the pairs A and B of that row. *)
Lemma loads_to_pick row row' :
  loads_to row row' →
  (row' !! "lat", row' !! "lon") =
  if notna (row_get row' "Geopoint1-Latitude")
     && notna (row_get row' "Geopoint1-Longitude")
  then (Some (row_get row' "Geopoint1-Latitude"),
        Some (row_get row' "Geopoint1-Longitude"))
  else if notna (row_get row' "geopoint-Latitude")
          && notna (row_get row' "geopoint-Longitude")
  then (Some (row_get row' "geopoint-Latitude"),
        Some (row_get row' "geopoint-Longitude"))
  else (Some NA, Some NA).
Proof.
  unfold loads_to. cbv zeta. intros (lat & lon & Hpick & ->).
  rewrite pick_coordinates_Done in Hpick.
  rewrite !(row_get_insert_ne _ "lat"), !(row_get_insert_ne _ "lon") by done.
  unfold Series in *. rewrite lookup_insert_eq, lookup_insert_ne by done.
  rewrite lookup_insert_eq.
  repeat match type of Hpick with context [if ?b then _ else _] =>
    destruct b end; now injection Hpick as <- <-.
Qed.

(** Claim C1.  The derived pair of every row of a loaded table is pair A
    when both fields of pair A are non-null, whatever pair B holds; else
    pair B when both its fields are non-null; else null twice.  The cells
    are taken as they are: nothing is averaged, no range is checked. *)
Theorem derived_pair_fallback file page df row :
  load_data file = (page, Done df) →
  row ∈ rows df →
  let a_lat := row_get row "Geopoint1-Latitude" in
  let a_lon := row_get row "Geopoint1-Longitude" in
  let b_lat := row_get row "geopoint-Latitude" in
  let b_lon := row_get row "geopoint-Longitude" in
  (a_lat ≠ NA → a_lon ≠ NA →
   row !! "lat" = Some a_lat ∧ row !! "lon" = Some a_lon)
  ∧ (a_lat = NA ∨ a_lon = NA → b_lat ≠ NA → b_lon ≠ NA →
     row !! "lat" = Some b_lat ∧ row !! "lon" = Some b_lon)
  ∧ (a_lat = NA ∨ a_lon = NA → b_lat = NA ∨ b_lon = NA →
     row !! "lat" = Some NA ∧ row !! "lon" = Some NA).
Proof.
  intros Hload Hrow.
  destruct (load_data_Done _ _ _ Hload) as [[-> _]|(_ & _ & _ & _ & Hall)].
  { cbn in Hrow. now apply not_elem_of_nil in Hrow. }
  apply list_elem_of_lookup in Hrow as [i Hi].
  destruct (Forall2_lookup_r _ _ _ _ _ Hall Hi) as (row0 & _ & Hto).
  apply loads_to_pick in Hto. cbv zeta.
  rewrite <- !notna_true, <- !notna_false.
  destruct (notna (row_get row "Geopoint1-Latitude")),
    (notna (row_get row "Geopoint1-Longitude")),
    (notna (row_get row "geopoint-Latitude")),
    (notna (row_get row "geopoint-Longitude"));
    cbn [andb] in Hto; injection Hto as -> ->;
    repeat split; intros; try done; intuition congruence.
Qed.

(** What loading leaves alone in a row: every label but the date and the two
    derived ones. *)
Lemma loads_to_frame row row' k :
  loads_to row row' →
  k ≠ "SubmissionDate" → k ≠ "lat" → k ≠ "lon" → row' !! k = row !! k.
Proof.
  unfold loads_to. cbv zeta. intros (lat & lon & _ & ->) H1 H2 H3.
  unfold Series in *. now rewrite !lookup_insert_ne by congruence.
Qed.

Lemma loads_to_date row row' :
  loads_to row row' →
  row' !! "SubmissionDate" = Some (to_datetime (row_get row "SubmissionDate")).
Proof.
  unfold loads_to. cbv zeta. intros (lat & lon & _ & ->).
  unfold Series in *. rewrite !lookup_insert_ne by done.
  apply lookup_insert_eq.
Qed.

(** Claim C5, as amended.  Every record of a loaded table has one category
    cell, the Province cell of the file, which is null when that cell is;
    and its derived pair is pair A as a whole, or pair B as a whole, or null
    twice. *)
Theorem one_category_one_pair file page df i row' :
  load_data file = (page, Done df) →
  rows df !! i = Some row' →
  (∃ row, rows file !! i = Some row ∧ row' !! "Province" = row !! "Province")
  ∧ ((row' !! "lat" = Some (row_get row' "Geopoint1-Latitude")
      ∧ row' !! "lon" = Some (row_get row' "Geopoint1-Longitude"))
     ∨ (row' !! "lat" = Some (row_get row' "geopoint-Latitude")
        ∧ row' !! "lon" = Some (row_get row' "geopoint-Longitude"))
     ∨ (row' !! "lat" = Some NA ∧ row' !! "lon" = Some NA)).
Proof.
  intros Hload Hi.
  destruct (load_data_Done _ _ _ Hload) as [[-> _]|(_ & _ & _ & _ & Hall)].
  { cbn in Hi. discriminate. }
  destruct (Forall2_lookup_r _ _ _ _ _ Hall Hi) as (row & Hrow & Hto).
  split.
  - exists row. split; [assumption|]. now apply loads_to_frame.
  - apply loads_to_pick in Hto.
    repeat match type of Hto with context [if ?b then _ else _] =>
      destruct b end; injection Hto as -> ->; auto.
Qed.

(** Claim C7.  With the required columns, a row never makes the load fail
    through its timestamp: the load returns a table, where the row's
    timestamp is the date/time read from the value, or null when the value
    cannot be read, and the row's other cells are those of the file. *)
Theorem timestamps_coerced file i row :
  has_column "Province" file = true →
  has_column "SubmissionDate" file = true →
  rows file !! i = Some row →
  ∃ df row',
    load_data file = ([], Done df)
    ∧ length (rows df) = length (rows file)
    ∧ rows df !! i = Some row'
    ∧ row' !! "SubmissionDate" = Some (to_datetime (row_get row "SubmissionDate"))
    ∧ (∀ s t, row_get row "SubmissionDate" = Str s →
              parse_datetime (Str s) = Some t →
              row' !! "SubmissionDate" = Some (Ts t))
    ∧ (∀ s, row_get row "SubmissionDate" = Str s →
            parse_datetime (Str s) = None →
            row' !! "SubmissionDate" = Some NA)
    ∧ (∀ q t, row_get row "SubmissionDate" = Num q →
              parse_datetime (Num q) = Some t →
              row' !! "SubmissionDate" = Some (Ts t))
    ∧ (∀ q, row_get row "SubmissionDate" = Num q →
            parse_datetime (Num q) = None →
            row' !! "SubmissionDate" = Some NA)
    ∧ (∀ k, k ≠ "SubmissionDate" → k ≠ "lat" → k ≠ "lon" →
            row' !! k = row !! k).
Proof.
  intros H1 H2 Hi.
  destruct (load_data_rows file) as (df & Hdf & _ & Hall); auto.
  { left. intros E. now rewrite E, lookup_nil in Hi. }
  destruct (Forall2_lookup_l _ _ _ _ _ Hall Hi) as (row' & Hi' & Hto).
  exists df, row'. split; [assumption|].
  split; [symmetry; eapply Forall2_length; eassumption|].
  split; [assumption|].
  pose proof (loads_to_date _ _ Hto) as Hdate.
  split; [assumption|].
  repeat split.
  - intros s t E Hp. rewrite Hdate, E. cbn. now rewrite Hp.
  - intros s E Hp. rewrite Hdate, E. cbn. now rewrite Hp.
  - intros q t E Hp. rewrite Hdate, E. cbn. now rewrite Hp.
  - intros q E Hp. rewrite Hdate, E. cbn. now rewrite Hp.
  - intros k. now apply loads_to_frame.
Qed.

(** Claim C10.  A successful load keeps the rows of the file, in number and
    in order; it appends the two labels lat and lon and no other; in each
    row it leaves the cell of every label of the file but the timestamp as
    it was, it creates no cell under any other label, and it fills lat and
    lon. *)
Theorem load_data_frame file page df :
  has_column "Province" file = true →
  has_column "SubmissionDate" file = true →
  "lat" ∉ columns file →
  "lon" ∉ columns file →
  load_data file = (page, Done df) →
  columns df = (columns file ++ ["lat"; "lon"])%list
  ∧ length (rows df) = length (rows file)
  ∧ ∀ i row', rows df !! i = Some row' →
      ∃ row, rows file !! i = Some row
             ∧ (∀ k, k ∈ columns file → k ≠ "SubmissionDate" →
                     row' !! k = row !! k)
             ∧ (∀ k, k ∉ columns df → row' !! k = row !! k)
             ∧ is_Some (row' !! "lat") ∧ is_Some (row' !! "lon").
Proof.
  intros H1 H2 Hlat Hlon Hload.
  destruct (load_data_Done _ _ _ Hload) as [[-> _]|(_ & _ & _ & Hcols & Hall)].
  { destruct (decide (rows file = [])) as [Hrows|Hrows];
      [destruct (decide (length (columns file) = 2%nat)) as [Hlen|Hlen]|].
    2:{ rewrite load_data_no_row in Hload by assumption. discriminate. }
    all: destruct (load_data_rows file) as (df' & Hdf' & Hc & _); auto;
      rewrite Hdf' in Hload; injection Hload as _ ->;
      cbn in Hc; destruct (columns file); discriminate. }
  split; [assumption|].
  split; [symmetry; eapply Forall2_length; eassumption|].
  intros i row' Hi.
  destruct (Forall2_lookup_r _ _ _ _ _ Hall Hi) as (row & Hrow & Hto).
  exists row. split; [assumption|]. repeat split.
  - intros k Hk Hne. apply loads_to_frame; [assumption..| |]; congruence.
  - intros k Hk. rewrite Hcols in Hk.
    apply loads_to_frame; [assumption|..]; intros ->; apply Hk.
    + apply elem_of_app. left. now apply has_column_true.
    + apply elem_of_app. right. set_solver.
    + apply elem_of_app. right. set_solver.
  - pose proof (loads_to_pick _ _ Hto) as Hp.
    repeat match type of Hp with context [if ?b then _ else _] =>
      destruct b end; injection Hp as -> _; eauto.
  - pose proof (loads_to_pick _ _ Hto) as Hp.
    repeat match type of Hp with context [if ?b then _ else _] =>
      destruct b end; injection Hp as _ ->; eauto.
Qed.

(** ** The province filter *)

Lemma cell_eqb_sentinel c :
  cell_eqb c (Str "All Provinces") = true ↔ c = Str "All Provinces".
Proof.
  destruct c as [|q|s|t]; cbn; try (split; [discriminate|congruence]).
  rewrite bool_decide_eq_true. split; congruence.
Qed.

Lemma cell_eqb_Str c s : cell_eqb c (Str s) = true ↔ c = Str s.
Proof.
  destruct c as [|q|s'|t]; cbn; try (split; [discriminate|congruence]).
  rewrite bool_decide_eq_true. split; congruence.
Qed.

Lemma filter_province_all df :
  filter_province (Str "All Provinces") df = Done df.
Proof. reflexivity. Qed.

Lemma filter_province_one selected_province df :
  selected_province ≠ Str "All Provinces" →
  has_column "Province" df = true →
  filter_province selected_province df =
  Done (mkDataFrame (columns df)
          (List.filter (λ row, cell_eqb (row_get row "Province") selected_province)
             (rows df))).
Proof.
  intros Hsel Hcol. unfold filter_province.
  destruct (cell_eqb selected_province (Str "All Provinces")) eqn:E.
  { now apply cell_eqb_sentinel in E. }
  cbn [negb]. rewrite column_Done by assumption. cbn.
  unfold getitem_mask. now rewrite List.map_map, mask_rows_filter.
Qed.

Lemma filter_sublist {A} (p : A → bool) (l : list A) :
  List.filter p l `sublist_of` l.
Proof.
  induction l as [|x l IH]; cbn; [constructor|].
  destruct (p x); now constructor.
Qed.

(** Claim C3.  The filter returns the rows whose category equals the
    selection, all of them and no other, in the order of the table, so none
    for a category the table does not have; for the sentinel it returns the
    table itself.  It is a function of the table and the selection: it
    returns a table, it raises nothing, and it writes nothing to the
    page. *)
Theorem filter_by_category selected_province df :
  has_column "Province" df = true →
  (selected_province ≠ Str "All Provinces" →
   ∃ filtered,
     filter_province selected_province df = Done filtered
     ∧ columns filtered = columns df
     ∧ rows filtered `sublist_of` rows df
     ∧ (∀ row, row ∈ rows filtered ↔
               row ∈ rows df
               ∧ cell_eqb (row_get row "Province") selected_province = true)
     ∧ ((∀ row, row ∈ rows df →
                cell_eqb (row_get row "Province") selected_province = false) →
        rows filtered = []))
  ∧ (selected_province = Str "All Provinces" →
     filter_province selected_province df = Done df).
Proof.
  intros Hcol. split.
  - intros Hsel. eexists. split; [now apply filter_province_one|].
    cbn [columns rows]. split; [reflexivity|].
    split; [apply filter_sublist|].
    split; [intros row; apply elem_of_filter|].
    intros Hnone. induction (rows df) as [|row l IH]; [reflexivity|].
    cbn. rewrite (Hnone row) by left. apply IH.
    intros row' Hrow'. apply Hnone. now right.
  - intros ->. apply filter_province_all.
Qed.

(** For a category given by name, equality of cells is equality with that
    name. *)
Lemma filter_by_name s df row filtered :
  filter_province (Str s) df = Done filtered →
  s ≠ "All Provinces" →
  has_column "Province" df = true →
  row ∈ rows filtered ↔ row ∈ rows df ∧ row_get row "Province" = Str s.
Proof.
  intros Hf Hs Hcol.
  rewrite filter_province_one in Hf by (assumption || congruence).
  injection Hf as <-. cbn [rows]. rewrite elem_of_filter.
  now rewrite cell_eqb_Str.
Qed.

(** ** Rows with and without coordinates *)

Lemma filter_complement {A} (p : A → bool) (l : list A) :
  (List.filter p l ++ List.filter (λ x, negb (p x)) l)%list ≡ₚ l.
Proof.
  induction l as [|x l IH]; [reflexivity|].
  cbn. destruct (p x); cbn.
  - now rewrite IH.
  - rewrite <- Permutation_middle. now rewrite IH.
Qed.

Lemma valid_coords_of_Done filtered :
  has_column "lat" filtered = true →
  has_column "lon" filtered = true →
  valid_coords_of filtered =
  Done (mkDataFrame (columns filtered)
          (List.filter (λ row, notna (row_get row "lat")
                               && notna (row_get row "lon"))
             (rows filtered))).
Proof.
  intros Hlat Hlon. unfold valid_coords_of, dropna. cbn [List.find].
  rewrite Hlat, Hlon. cbn [negb]. do 2 f_equal.
  apply filter_ext. intros row. cbn. now rewrite andb_true_r.
Qed.

Lemma missing_coords_of_Done filtered :
  has_column "lat" filtered = true →
  has_column "lon" filtered = true →
  missing_coords_of filtered =
  Done (mkDataFrame (columns filtered)
          (List.filter (λ row, negb (notna (row_get row "lat")
                                     && notna (row_get row "lon")))
             (rows filtered))).
Proof.
  intros Hlat Hlon. unfold missing_coords_of.
  rewrite !column_Done by assumption. cbn. unfold getitem_mask. do 2 f_equal.
  rewrite <- mask_rows_filter. f_equal.
  induction (rows filtered) as [|row l IH]; [reflexivity|].
  cbn. rewrite IH. f_equal. unfold notna.
  now destruct (isna (row_get row "lat")), (isna (row_get row "lon")).
Qed.

(** Claim C2.  The rows with both derived coordinates and the rows with a
    null derived coordinate split the filtered table in two: a row of the
    table is in exactly one of them, together they are the rows of the
    table, and the number of points of the map plus the number of rows of
    the report is the number of rows of the table. *)
Theorem valid_missing_partition filtered :
  has_column "lat" filtered = true →
  has_column "lon" filtered = true →
  ∃ valid_coords missing_coords,
    valid_coords_of filtered = Done valid_coords
    ∧ missing_coords_of filtered = Done missing_coords
    ∧ (∀ row, row ∈ rows valid_coords ↔
              row ∈ rows filtered
              ∧ row_get row "lat" ≠ NA ∧ row_get row "lon" ≠ NA)
    ∧ (∀ row, row ∈ rows missing_coords ↔
              row ∈ rows filtered
              ∧ (row_get row "lat" = NA ∨ row_get row "lon" = NA))
    ∧ (∀ row, row ∈ rows filtered →
              (row ∈ rows valid_coords ∧ row ∉ rows missing_coords)
              ∨ (row ∈ rows missing_coords ∧ row ∉ rows valid_coords))
    ∧ (rows valid_coords ++ rows missing_coords)%list ≡ₚ rows filtered
    ∧ (length (positions valid_coords) + length (rows missing_coords)
       = length (rows filtered))%nat.
Proof.
  intros Hlat Hlon. do 2 eexists.
  split; [now apply valid_coords_of_Done|].
  split; [now apply missing_coords_of_Done|].
  cbn [rows].
  assert (Hvalid : ∀ row,
    row ∈ List.filter (λ row, notna (row_get row "lat")
                              && notna (row_get row "lon")) (rows filtered)
    ↔ row ∈ rows filtered ∧ row_get row "lat" ≠ NA ∧ row_get row "lon" ≠ NA).
  { intros row. rewrite elem_of_filter, andb_true_iff, !notna_true. tauto. }
  assert (Hmissing : ∀ row,
    row ∈ List.filter (λ row, negb (notna (row_get row "lat")
                                    && notna (row_get row "lon")))
            (rows filtered)
    ↔ row ∈ rows filtered ∧ (row_get row "lat" = NA ∨ row_get row "lon" = NA)).
  { intros row.
    rewrite elem_of_filter, negb_true_iff, andb_false_iff, !notna_false.
    tauto. }
  split; [assumption|]. split; [assumption|]. split; [|split].
  - intros row Hrow. rewrite Hvalid, Hmissing.
    rewrite <- !notna_true, <- !notna_false.
    destruct (notna (row_get row "lat")), (notna (row_get row "lon"));
      intuition congruence.
  - apply filter_complement.
  - unfold positions. cbn [rows]. rewrite length_map. apply filter_length.
Qed.

(** ** The timeline *)

Lemma count_on_cons d k c l :
  count_on d ((k, c) :: l) = ((if (k =? d)%Z then c else 0) + count_on d l)%nat.
Proof. unfold count_on. cbn. now destruct (k =? d)%Z. Qed.

Lemma count_on_bump d k l :
  count_on d (bump k l) = (count_on d l + if (k =? d)%Z then 1 else 0)%nat.
Proof.
  induction l as [|[k' c] l IH]; cbn [bump].
  - rewrite count_on_cons. unfold count_on. cbn. lia.
  - destruct (Z.ltb_spec k k'); [|destruct (Z.eqb_spec k k') as [->|]];
      rewrite !count_on_cons; [| |rewrite IH];
      repeat match goal with |- context [(?x =? d)%Z] =>
        destruct (x =? d)%Z end; lia.
Qed.

Lemma count_on_groupby_size d keys :
  count_on d (groupby_size keys) = length (List.filter (λ k, (k =? d)%Z) keys).
Proof.
  induction keys as [|k keys IH]; [reflexivity|].
  change (groupby_size (k :: keys)) with (bump k (groupby_size keys)).
  rewrite count_on_bump, IH. cbn. destruct (k =? d)%Z; cbn; lia.
Qed.

Lemma bump_above k0 k l :
  (k0 < k)%Z →
  Forall (λ q : Z * nat, (k0 < q.1)%Z) l →
  Forall (λ q : Z * nat, (k0 < q.1)%Z) (bump k l).
Proof.
  intros Hk. induction 1 as [|[k' c] l Hk' Hl IH]; cbn.
  - repeat constructor. assumption.
  - destruct (k <? k')%Z; [|destruct (k =? k')%Z]; repeat constructor; auto.
Qed.

Lemma bump_chronological k l : chronological l → chronological (bump k l).
Proof.
  unfold chronological. induction 1 as [|[k' c] l Hl IH Hall]; cbn.
  - repeat constructor.
  - destruct (Z.ltb_spec k k'); [|destruct (Z.eqb_spec k k') as [->|]].
    + constructor; [now constructor|]. constructor; [assumption|].
      eapply Forall_impl; [eassumption|]. cbn. intros; lia.
    + now constructor.
    + constructor; [assumption|]. apply bump_above; [cbn; lia|assumption].
Qed.

Lemma groupby_size_chronological keys : chronological (groupby_size keys).
Proof.
  induction keys as [|k keys IH]; cbn; [constructor|].
  now apply bump_chronological.
Qed.

Lemma bump_positive k l :
  Forall (λ p : Z * nat, p.2 ≠ 0%nat) l →
  Forall (λ p : Z * nat, p.2 ≠ 0%nat) (bump k l).
Proof.
  induction 1 as [|[k' c] l Hc Hl IH]; cbn.
  - repeat constructor. discriminate.
  - destruct (k <? k')%Z; [|destruct (k =? k')%Z]; repeat constructor; auto.
Qed.

Lemma groupby_size_positive keys :
  Forall (λ p : Z * nat, p.2 ≠ 0%nat) (groupby_size keys).
Proof.
  induction keys as [|k keys IH]; cbn; [constructor|].
  now apply bump_positive.
Qed.

Lemma count_on_above d l :
  Forall (λ q : Z * nat, (d < q.1)%Z) l → count_on d l = 0%nat.
Proof.
  induction 1 as [|[k c] l Hk Hl IH]; [reflexivity|].
  rewrite count_on_cons, IH. cbn in Hk. destruct (Z.eqb_spec k d); lia.
Qed.

Lemma chronological_count_on d n l :
  chronological l → (d, n) ∈ l → count_on d l = n.
Proof.
  unfold chronological. induction 1 as [|[k c] l Hl IH Hall]; intros Hin.
  - now apply not_elem_of_nil in Hin.
  - rewrite count_on_cons. apply elem_of_cons in Hin as [[= <- <-]|Hin].
    + rewrite Z.eqb_refl, count_on_above by assumption. lia.
    + destruct (Z.eqb_spec k d) as [->|Hne]; [|now apply IH].
      rewrite Forall_forall in Hall. apply Hall in Hin. cbn in Hin. lia.
Qed.

Lemma count_on_elem d l :
  count_on d l ≠ 0%nat → ∃ n, (d, n) ∈ l.
Proof.
  induction l as [|[k c] l IH]; [now unfold count_on|].
  rewrite count_on_cons. destruct (Z.eqb_spec k d) as [->|Hne].
  - intros _. exists c. left.
  - intros H. destruct (IH H) as [m Hm]. exists m. now right.
Qed.

(** The lines of [groupby_size]: one per day that occurs, with the number
    of its occurrences. *)
Lemma groupby_size_lines keys d n :
  (d, n) ∈ groupby_size keys ↔
  n ≠ 0%nat ∧ n = length (List.filter (λ k, (k =? d)%Z) keys).
Proof.
  rewrite <- count_on_groupby_size. split.
  - intros Hin. split.
    + pose proof (groupby_size_positive keys) as Hpos.
      rewrite Forall_forall in Hpos. now apply Hpos in Hin.
    + symmetry. apply chronological_count_on;
        [apply groupby_size_chronological|assumption].
  - intros [Hn ->]. destruct (count_on_elem _ _ Hn) as [m Hm].
    now rewrite (chronological_count_on _ _ _ (groupby_size_chronological _) Hm).
Qed.

(** What a loaded table with rows and labels carries: the labels the script
    reads, and a timestamp column of dates and nulls. *)
Lemma loaded_table file page df :
  load_data file = (page, Done df) →
  empty df = false →
  has_column "Province" df = true
  ∧ has_column "SubmissionDate" df = true
  ∧ has_column "lat" df = true
  ∧ has_column "lon" df = true
  ∧ ∀ row, row ∈ rows df →
           row_get row "SubmissionDate" = NA
           ∨ ∃ t, row_get row "SubmissionDate" = Ts t.
Proof.
  intros Hload Hempty.
  destruct (load_data_Done _ _ _ Hload) as [[-> _]|(H1 & H2 & _ & Hcols & Hall)].
  { discriminate. }
  rewrite !has_column_true in *. rewrite Hcols.
  repeat split; try (apply elem_of_app; (now left) || (right; set_solver)).
  intros row' Hrow'. apply list_elem_of_lookup in Hrow' as [i Hi].
  destruct (Forall2_lookup_r _ _ _ _ _ Hall Hi) as (row & _ & Hto).
  apply loads_to_date in Hto. unfold row_get. rewrite Hto. cbn.
  apply to_datetime_kind.
Qed.

(** The filter keeps the labels, and rows of the table only. *)
Lemma filter_province_rows selected_province df filtered :
  has_column "Province" df = true →
  filter_province selected_province df = Done filtered →
  columns filtered = columns df ∧ ∀ row, row ∈ rows filtered → row ∈ rows df.
Proof.
  intros Hcol Hf. unfold filter_province in Hf.
  destruct (cell_eqb selected_province (Str "All Provinces")); cbn [negb] in Hf.
  { injection Hf as <-. auto. }
  rewrite column_Done in Hf by assumption. injection Hf as <-.
  split; [reflexivity|]. cbn [getitem_mask rows].
  rewrite List.map_map, mask_rows_filter. intros row Hrow.
  now apply elem_of_filter in Hrow.
Qed.

Lemma existsb_notna_false l :
  existsb notna l = false ↔ ∀ c, c ∈ l → c = NA.
Proof.
  induction l as [|c l IH]; cbn.
  - split; [intros _ c Hc; now apply not_elem_of_nil in Hc|reflexivity].
  - rewrite orb_false_iff, IH, notna_false. split.
    + intros [-> Hl] c' [->|Hc']%elem_of_cons; auto.
    + intros Hall. split; [apply Hall; left|].
      intros c' Hc'. apply Hall. now right.
Qed.

Lemma dropna_one k df :
  has_column k df = true →
  dropna [k] df =
  Done (mkDataFrame (columns df)
          (List.filter (λ row, notna (row_get row k)) (rows df))).
Proof.
  intros Hk. unfold dropna. cbn [List.find]. rewrite Hk. cbn [negb].
  do 2 f_equal. apply filter_ext. intros row. cbn. apply andb_true_r.
Qed.

(** The days charted for a table whose timestamps are dates or nulls. *)
Lemma days_of_rows d (l : list Series) :
  (∀ row, row ∈ l →
          row_get row "SubmissionDate" = NA
          ∨ ∃ t, row_get row "SubmissionDate" = Ts t) →
  ∃ keys,
    mapM dt_date
      (map (λ row, row_get row "SubmissionDate")
         (List.filter (λ row, notna (row_get row "SubmissionDate")) l))
    = Done keys
    ∧ length (List.filter (λ k, (k =? d)%Z) keys)
      = length (List.filter
                  (λ row, match row_get row "SubmissionDate" with
                          | Ts t => (date t =? d)%Z
                          | _ => false
                          end) l).
Proof.
  induction l as [|row l IH]; intros Hkind.
  - exists []. split; reflexivity.
  - destruct IH as (keys & Hkeys & Hlen).
    { intros row' Hrow'. apply Hkind. now right. }
    destruct (Hkind row) as [E|[t E]]; [left| |]; cbn [List.filter]; rewrite E.
    + exists keys. split; assumption.
    + exists (date t :: keys). cbn [notna isna negb map mapM]. rewrite E.
      cbn [dt_date]. split.
      * cbn. rewrite Hkeys. reflexivity.
      * cbn. destruct (date t =? d)%Z; cbn; congruence.
Qed.

(** The timeline, once the column is found. *)
Lemma timeline_unfold filtered :
  has_column "SubmissionDate" filtered = true →
  timeline filtered =
  if existsb notna (map (λ row, row_get row "SubmissionDate") (rows filtered))
  then
    match mapM dt_date
            (map (λ row, row_get row "SubmissionDate")
               (List.filter (λ row, notna (row_get row "SubmissionDate"))
                  (rows filtered)))
    with
    | Done keys =>
        ([st_header "Submissions Over Time";
          st_plotly_chart (groupby_size keys)], Done tt)
    | Stop => ([st_header "Submissions Over Time"], Stop)
    | Raise e => ([st_header "Submissions Over Time"], Raise e)
    end
  else ([st_header "Submissions Over Time";
         st_info "No valid SubmissionDate values found."], Done tt).
Proof.
  intros HS. unfold timeline. rewrite column_Done by assumption.
  unfold emit at 1. unfold mbind at 1, M_bind at 1.
  rewrite bind_lift_Done.
  destruct (existsb notna _); [|reflexivity].
  rewrite dropna_one, bind_lift_Done by assumption.
  rewrite column_Done, bind_lift_Done by assumption.
  cbn [rows]. destruct (mapM dt_date _); reflexivity.
Qed.

(** Claim C6.  On a filtered table that has a non-null timestamp the
    timeline is a chart of one line per calendar day on which a record of
    the table falls, with the number of those records, rows with a null
    timestamp counting for no day, in increasing order of day; on a table
    whose timestamps are all null it is the message that there is no
    date. *)
Theorem timeline_by_day file page df selected_province filtered :
  load_data file = (page, Done df) →
  empty df = false →
  filter_province selected_province df = Done filtered →
  ((∃ row, row ∈ rows filtered ∧ row_get row "SubmissionDate" ≠ NA) →
   ∃ times_by_date,
     timeline filtered =
     ([st_header "Submissions Over Time"; st_plotly_chart times_by_date],
      Done tt)
     ∧ chronological times_by_date
     ∧ ∀ d n,
         (d, n) ∈ times_by_date ↔
         n ≠ 0%nat
         ∧ n = length (List.filter
                         (λ row, match row_get row "SubmissionDate" with
                                 | Ts t => (date t =? d)%Z
                                 | _ => false
                                 end) (rows filtered)))
  ∧ ((∀ row, row ∈ rows filtered → row_get row "SubmissionDate" = NA) →
     timeline filtered =
     ([st_header "Submissions Over Time";
       st_info "No valid SubmissionDate values found."], Done tt)).
Proof.
  intros Hload Hempty Hfilter.
  destruct (loaded_table _ _ _ Hload Hempty) as (HP & HS & _ & _ & Hkind).
  destruct (filter_province_rows _ _ _ HP Hfilter) as [Hcols Hrows].
  assert (HS' : has_column "SubmissionDate" filtered = true).
  { unfold has_column in *. now rewrite Hcols. }
  assert (Hkind' : ∀ row, row ∈ rows filtered →
            row_get row "SubmissionDate" = NA
            ∨ ∃ t, row_get row "SubmissionDate" = Ts t) by auto.
  clear Hload Hempty Hfilter HP HS Hkind Hcols Hrows.
  rewrite timeline_unfold by assumption.
  split.
  - intros (row & Hrow & Hdate).
    destruct (existsb notna _) eqn:Hsome.
    2:{ rewrite existsb_notna_false in Hsome. destruct Hdate.
        apply Hsome, list_elem_of_fmap. now exists row. }
    destruct (days_of_rows 0 _ Hkind') as (keys & Hkeys & _).
    exists (groupby_size keys). rewrite Hkeys.
    split; [reflexivity|]. split; [apply groupby_size_chronological|].
    intros d n. rewrite groupby_size_lines.
    destruct (days_of_rows d _ Hkind') as (keys' & Hkeys' & Hlen).
    rewrite Hkeys in Hkeys'. injection Hkeys' as <-. now rewrite Hlen.
  - intros Hnull.
    destruct (existsb notna _) eqn:Hsome; [|reflexivity].
    apply existsb_exists in Hsome as (c & Hc & Hnot).
    apply in_map_iff in Hc as (row & <- & Hrow).
    rewrite Hnull in Hnot by now apply list_elem_of_In. discriminate.
Qed.

(** ** The map *)

Lemma nansum_Num l : nansum (map Num l) = Done (foldr Qplus 0%Q l).
Proof. induction l as [|q l IH]; cbn; [reflexivity|]. now rewrite IH. Qed.

Lemma filter_notna_Num l : List.filter notna (map Num l) = map Num l.
Proof. induction l as [|q l IH]; cbn; congruence. Qed.

(** The mean of a column of numbers is their sum over their number. *)
Lemma mean_Num q l :
  mean (map Num (q :: l)) =
  Done (Num (foldr Qplus 0 (q :: l) / inject_Z (Z.of_nat (length (q :: l))))%Q).
Proof.
  unfold mean. rewrite nansum_Num, filter_notna_Num, length_map. reflexivity.
Qed.

(** A string among the values makes the mean raise. *)
Lemma mean_Str s l : mean (Str s :: l) = Raise (TypeError "Could not convert to numeric").
Proof. reflexivity. Qed.

(** Claim C9.  For rows with numeric derived coordinates, at least one, the
    map is a deck over exactly these rows, one point per row at the row's
    (lon, lat); its view is centered at the sum of the latitudes over their
    number and the sum of the longitudes over their number, at zoom 6; for
    no row the map is the message that there is no coordinate. *)
Theorem map_centered_at_mean valid_coords lats lons :
  has_column "lat" valid_coords = true →
  has_column "lon" valid_coords = true →
  map (λ row, row_get row "lat") (rows valid_coords) = map Num lats →
  map (λ row, row_get row "lon") (rows valid_coords) = map Num lons →
  (rows valid_coords ≠ [] →
   let count := inject_Z (Z.of_nat (length (rows valid_coords))) in
   map_of_submissions valid_coords =
   ([st_header "Map of Submissions";
     st_pydeck_chart valid_coords
       (mkViewState (Num (foldr Qplus 0 lats / count)%Q)
                    (Num (foldr Qplus 0 lons / count)%Q) 6 0)], Done tt)
   ∧ length (positions valid_coords) = length (rows valid_coords)
   ∧ ∀ i row, rows valid_coords !! i = Some row →
              positions valid_coords !! i
              = Some (row_get row "lon", row_get row "lat"))
  ∧ (rows valid_coords = [] →
     map_of_submissions valid_coords =
     ([st_header "Map of Submissions";
       st_info "No valid GPS coordinates found for the selected province."],
      Done tt)).
Proof.
  intros Hlat Hlon Elat Elon. split.
  - intros Hne. cbv zeta.
    assert (Hlats : length lats = length (rows valid_coords)).
    { rewrite <- (length_map Num lats), <- Elat. apply length_map. }
    assert (Hlons : length lons = length (rows valid_coords)).
    { rewrite <- (length_map Num lons), <- Elon. apply length_map. }
    split; [|split].
    + assert (Hempty : empty valid_coords = false).
      { unfold empty. apply has_column_true in Hlat.
        destruct (columns valid_coords); [now apply not_elem_of_nil in Hlat|].
        now destruct (rows valid_coords). }
      unfold map_of_submissions. rewrite Hempty.
      destruct lats as [|x lats];
        [destruct (rows valid_coords); [contradiction|discriminate]|].
      destruct lons as [|y lons];
        [destruct (rows valid_coords); [contradiction|discriminate]|].
      rewrite (column_Done "lat"), bind_lift_Done, Elat by assumption.
      rewrite mean_Num, bind_lift_Done, Hlats.
      rewrite (column_Done "lon"), bind_lift_Done, Elon by assumption.
      rewrite mean_Num, bind_lift_Done, Hlons. reflexivity.
    + unfold positions. apply length_map.
    + intros i row Hi. unfold positions.
      now rewrite list_lookup_fmap, Hi.
  - intros Hrows. unfold map_of_submissions, empty. rewrite Hrows.
    now destruct (columns valid_coords).
Qed.

(** ** The script *)

(** Without a required column the script writes the error and stops before
    any of the three panels. *)
Lemma app_missing_column file choice :
  has_column "Province" file = false
  ∨ has_column "SubmissionDate" file = false →
  ∃ msg,
    app (Some file) choice =
    ([st_title "Submission Map & Timeline";
      st_sidebar_header "Upload Data File"; st_error msg], Stop).
Proof.
  intros Hmissing. unfold app.
  destruct (has_column "Province" file) eqn:H1.
  - destruct Hmissing as [|H2]; [discriminate|].
    rewrite load_data_missing_date by assumption. eexists. reflexivity.
  - rewrite load_data_missing_province by assumption. eexists. reflexivity.
Qed.


(** *** Where the script runs to its end *)

Lemma completes_bind (m : M unit) (k : M unit) :
  completes m → completes k → completes (m ;; k).
Proof. intros [p ->] [p' ->]. eexists. reflexivity. Qed.

Lemma completes_emit e : completes (emit e).
Proof. eexists. reflexivity. Qed.






Lemma insort_names s l :
  Forall (λ c, ∃ s', c = Str s') l →
  ∃ l', insort (Str s) l = Done l' ∧ Forall (λ c, ∃ s', c = Str s') l'.
Proof.
  induction 1 as [|c l [s' ->] Hl IH]; cbn.
  - eexists. split; [reflexivity|]. repeat constructor. eauto.
  - destruct (String.ltb s s').
    + eexists. split; [reflexivity|]. repeat constructor; eauto.
    + destruct IH as (l' & -> & Hl'). eexists. split; [reflexivity|].
      constructor; eauto.
Qed.

Lemma sorted_names l :
  Forall (λ c, ∃ s, c = Str s) l →
  ∃ l', sorted l = Done l' ∧ Forall (λ c, ∃ s, c = Str s) l'.
Proof.
  induction 1 as [|c l [s ->] Hl IH]; cbn.
  - eexists. split; [reflexivity|constructor].
  - destruct IH as (l' & -> & Hl'). cbn. now apply insort_names.
Qed.





(** Claim C4, at a file with a header line and no data row: without the
    Province column the loader reports the error and returns the empty
    frame, and the script stops; with the Province column added the loader
    raises instead of returning a table. *)
Theorem header_only_load_raises choice :
  load_data header_lacking_province =
  ([st_error "The file must contain a 'Province' column."], Done empty_frame)
  ∧ app (Some header_lacking_province) choice =
    ([st_title "Submission Map & Timeline";
      st_sidebar_header "Upload Data File";
      st_error "The file must contain a 'Province' column."], Stop)
  ∧ load_data header_only =
    ([], Raise (ValueError "Length mismatch")).
Proof. repeat split. Qed.

(** Claim C8, at two tables with the required columns: one with no data row,
    one whose coordinate cells are text.  The script ends in an exception on
    both, in the loader on the first and in the map on the second. *)
Theorem app_raises choice :
  app (Some header_only) choice =
  ([st_title "Submission Map & Timeline";
    st_sidebar_header "Upload Data File"],
   Raise (ValueError "Length mismatch"))
  ∧ ∃ page,
      app (Some text_coordinates) choice =
      (page, Raise (TypeError "Could not convert to numeric"))
      ∧ st_header "Map of Submissions" ∈ page
      ∧ ∀ map_df view_state, st_pydeck_chart map_df view_state ∉ page.
Proof.
  split; [reflexivity|].
  destruct choice as [|[|[|choice]]]; eexists;
    (split; [vm_compute; reflexivity|]);
    (split; [repeat ((by left) || right)|]);
    intros map_df view_state Hin;
    repeat (apply elem_of_cons in Hin as [Hin|Hin]; [discriminate|]);
    now apply not_elem_of_nil in Hin.
Qed.

(** * Further properties of the script *)

(** ** The coordinates of a row *)

(** Property X1.
    [pick_coordinates] raises no KeyError, whatever labels the row has, and
    the pair it returns is never half a pair: its latitude is null exactly
    when its longitude is. *)
Theorem pick_coordinates_whole_pair row :
  ∃ lat lon,
    pick_coordinates row = Done (lat, lon) ∧ (lat = NA ↔ lon = NA).
Proof.
  rewrite pick_coordinates_Done.
  destruct (notna (row_get row "Geopoint1-Latitude")) eqn:A1,
    (notna (row_get row "Geopoint1-Longitude")) eqn:A2; cbn [andb];
    try (destruct (notna (row_get row "geopoint-Latitude")) eqn:B1,
           (notna (row_get row "geopoint-Longitude")) eqn:B2; cbn [andb]);
    do 2 eexists; (split; [reflexivity|]);
    rewrite ?notna_true in *; tauto.
Qed.

(** ** The province selector *)

Lemma insort_Permutation x l l' : insort x l = Done l' → l' ≡ₚ x :: l.
Proof.
  revert l'. induction l as [|y l IH]; intros l'; cbn.
  - now intros [= <-].
  - destruct (cell_ltb x y) as [[]| |]; cbn; try discriminate.
    + now intros [= <-].
    + destruct (insort x l) as [l0| |]; cbn; try discriminate.
      intros [= <-]. rewrite (IH l0 eq_refl). apply perm_swap.
Qed.

Lemma sorted_Permutation l l' : sorted l = Done l' → l' ≡ₚ l.
Proof.
  revert l'. induction l as [|x l IH]; intros l'; cbn.
  - now intros [= <-].
  - destruct (sorted l) as [l0| |]; cbn; try discriminate.
    intros Hl'. rewrite (insort_Permutation _ _ _ Hl'). now rewrite (IH l0).
Qed.

Lemma cell_ltb_kind a b lt : cell_ltb a b = Done lt → kind a = kind b.
Proof. destruct a, b; cbn; congruence. Qed.

Lemma insort_kind x l l' :
  insort x l = Done l' → ∀ y, y ∈ l → (∀ z, z ∈ l → kind z = kind y) →
  kind x = kind y.
Proof.
  destruct l as [|y0 l]; cbn; intros Hl' y Hy Hsame.
  - now apply not_elem_of_nil in Hy.
  - destruct (cell_ltb x y0) as [lt| |] eqn:E; cbn in Hl'; try discriminate.
    rewrite (cell_ltb_kind _ _ _ E). apply Hsame. left.
Qed.

(** A list that [sorted] accepts holds values of one kind. *)
Lemma sorted_kind l l' :
  sorted l = Done l' → ∀ x y, x ∈ l → y ∈ l → kind x = kind y.
Proof.
  revert l'. induction l as [|x0 l IH]; intros l' Hl' x y Hx Hy.
  - now apply not_elem_of_nil in Hx.
  - cbn in Hl'. destruct (sorted l) as [l0| |] eqn:E; cbn in Hl';
      try discriminate.
    pose proof (sorted_Permutation _ _ E) as Hperm.
    assert (Hhead : ∀ z, z ∈ l → kind x0 = kind z).
    { intros z Hz. apply (insort_kind _ _ _ Hl'); [now rewrite Hperm|].
      intros z' Hz'. rewrite Hperm in Hz'. now apply (IH l0). }
    apply elem_of_cons in Hx as [->|Hx], Hy as [->|Hy]; auto.
    + symmetry. auto.
    + now apply (IH l0).
Qed.

Lemma insort_outcome x l :
  (∃ l', insort x l = Done l')
  ∨ insort x l = Raise (TypeError "'<' not supported").
Proof.
  induction l as [|y l IH]; cbn; [left; eauto|].
  destruct (cell_ltb x y) as [[]| |e] eqn:E; cbn.
  - left. eauto.
  - destruct IH as [[l' ->]| ->]; cbn; [left; eauto|now right].
  - destruct x, y; discriminate.
  - right. destruct x, y; cbn in E; congruence.
Qed.

Lemma sorted_outcome l :
  (∃ l', sorted l = Done l')
  ∨ sorted l = Raise (TypeError "'<' not supported").
Proof.
  induction l as [|x l IH]; cbn; [left; eauto|].
  destruct IH as [[l' ->]| ->]; cbn; [apply insort_outcome|now right].
Qed.

Lemma cell_eqb_kind a b : cell_eqb a b = true → kind a = kind b.
Proof. destruct a, b; cbn; congruence. Qed.

Lemma unique_subseteq l x : x ∈ unique l → x ∈ l.
Proof.
  revert x. induction l as [|a l IH]; intros x; cbn; [intros H; exact H|].
  intros [->|Hx%list_elem_of_In%filter_In]%elem_of_cons; [left|].
  right. apply IH, list_elem_of_In. exact (proj1 Hx).
Qed.

(** [unique] keeps a value of every kind it is given. *)
Lemma unique_kind l x : x ∈ l → ∃ x', x' ∈ unique l ∧ kind x' = kind x.
Proof.
  induction l as [|a l IH]; [intros []%not_elem_of_nil|].
  intros [->|Hx]%elem_of_cons; cbn.
  - exists a. split; [left|reflexivity].
  - destruct (IH Hx) as (x' & Hx' & Hkind).
    destruct (cell_eqb a x') eqn:E.
    + exists a. split; [left|]. rewrite <- Hkind. now apply cell_eqb_kind.
    + exists x'. split; [|assumption]. right.
      apply list_elem_of_In, filter_In. rewrite E.
      split; [now apply list_elem_of_In|reflexivity].
Qed.

(** Line 65 on a Province column that holds two non-null values of different
    kinds, a name and a number say: [sorted] raises TypeError, so the
    selector cannot be built. *)
Lemma province_list_mixed df row1 row2 :
  has_column "Province" df = true →
  row1 ∈ rows df → row2 ∈ rows df →
  row_get row1 "Province" ≠ NA → row_get row2 "Province" ≠ NA →
  kind (row_get row1 "Province") ≠ kind (row_get row2 "Province") →
  province_list df = Raise (TypeError "'<' not supported").
Proof.
  intros Hcol Hrow1 Hrow2 Hna1 Hna2 Hkind.
  unfold province_list. rewrite column_Done by assumption. cbn.
  set (col := map (λ row, row_get row "Province") (rows df)).
  destruct (sorted_outcome (unique (List.filter notna col)))
    as [[names Hnames]| ->]; [|reflexivity].
  destruct Hkind.
  assert (Hin : ∀ row, row ∈ rows df → row_get row "Province" ≠ NA →
            ∃ c, c ∈ unique (List.filter notna col)
                 ∧ kind c = kind (row_get row "Province")).
  { intros row Hrow Hna. apply unique_kind, list_elem_of_In, filter_In.
    split; [|now apply notna_true].
    apply in_map_iff. exists row. split; [reflexivity|].
    now apply list_elem_of_In. }
  destruct (Hin row1 Hrow1 Hna1) as (c1 & Hc1 & <-).
  destruct (Hin row2 Hrow2 Hna2) as (c2 & Hc2 & <-).
  now apply (sorted_kind _ _ Hnames).
Qed.

(** Property X2.
    A table whose provinces are of two kinds stops the script with a
    TypeError at line 65, after the title and before the selector and the
    three panels. *)
Theorem mixed_provinces_raise file page df choice row1 row2 :
  load_data file = (page, Done df) →
  row1 ∈ rows df → row2 ∈ rows df →
  row_get row1 "Province" ≠ NA → row_get row2 "Province" ≠ NA →
  kind (row_get row1 "Province") ≠ kind (row_get row2 "Province") →
  app (Some file) choice =
  ([st_title "Submission Map & Timeline";
    st_sidebar_header "Upload Data File"],
   Raise (TypeError "'<' not supported")).
Proof.
  intros Hload Hrow1 Hrow2 Hna1 Hna2 Hkind.
  assert (Hempty : empty df = false).
  { destruct (load_data_Done _ _ _ Hload) as [[-> _]|(_ & _ & _ & Hcols & _)].
    - now apply not_elem_of_nil in Hrow1.
    - unfold empty. rewrite Hcols.
      destruct (rows df); [now apply not_elem_of_nil in Hrow1|].
      now destruct (columns file). }
  destruct (loaded_table _ _ _ Hload Hempty) as (HP & _).
  destruct (load_data_Done _ _ _ Hload) as [[-> _]|(_ & _ & -> & _)];
    [discriminate|].
  unfold app. rewrite Hload. cbn -[province_list].
  rewrite Hempty.
  rewrite (province_list_mixed df row1 row2) by assumption. reflexivity.
Qed.

Lemma cell_eqb_Str_l s c : cell_eqb (Str s) c = true ↔ c = Str s.
Proof.
  destruct c as [|q|s'|t]; cbn; try (split; [discriminate|congruence]).
  rewrite bool_decide_eq_true. split; congruence.
Qed.

Lemma cell_eqb_refl c : c ≠ NA → cell_eqb c c = true.
Proof.
  destruct c as [|q|s|t]; cbn; intros H; [done| | |].
  - apply Qeq_bool_refl.
  - now apply bool_decide_eq_true.
  - now rewrite !Z.eqb_refl.
Qed.

Lemma unique_names_elem l x :
  Forall (λ c, ∃ s, c = Str s) l → x ∈ l → x ∈ unique l.
Proof.
  induction 1 as [|a l [s ->] Hl IH]; [intros []%not_elem_of_nil|].
  intros [->|Hx]%elem_of_cons; cbn [unique]; [left|].
  destruct (cell_eqb (Str s) x) eqn:E.
  - apply cell_eqb_Str_l in E as ->. left.
  - right. apply list_elem_of_In, filter_In. rewrite E.
    split; [apply list_elem_of_In; auto|reflexivity].
Qed.

Lemma unique_names_NoDup l :
  Forall (λ c, ∃ s, c = Str s) l → NoDup (unique l).
Proof.
  induction 1 as [|a l [s ->] Hl IH]; cbn [unique]; constructor.
  - intros [_ E]%list_elem_of_In%filter_In.
    now rewrite cell_eqb_refl in E.
  - apply NoDup_ListNoDup, List.NoDup_filter, NoDup_ListNoDup, IH.
Qed.

(** The order that [sorted] leaves between neighbours: the second is not
    below the first. *)
Lemma insort_HdRel x y l l' :
  insort x l = Done l' →
  cell_ltb x y = Done false →
  HdRel (λ a b, cell_ltb b a = Done false) y l →
  HdRel (λ a b, cell_ltb b a = Done false) y l'.
Proof.
  destruct l as [|z l]; cbn; intros Hl' Hxy Hyl.
  - injection Hl' as <-. now constructor.
  - destruct (cell_ltb x z) as [[]| |]; cbn in Hl'; try discriminate.
    + injection Hl' as <-. now constructor.
    + destruct (insort x l); cbn in Hl'; try discriminate.
      injection Hl' as <-. constructor. now inversion Hyl.
Qed.

Lemma ltb_names_flip s t :
  cell_ltb (Str s) (Str t) = Done true → cell_ltb (Str t) (Str s) = Done false.
Proof.
  cbn. unfold String.ltb. rewrite (String.compare_antisym s t).
  destruct (t ?= s)%string; cbn; congruence.
Qed.

Lemma insort_Sorted s l l' :
  Forall (λ c, ∃ s', c = Str s') l →
  Sorted (λ a b, cell_ltb b a = Done false) l →
  insort (Str s) l = Done l' →
  Sorted (λ a b, cell_ltb b a = Done false) l'.
Proof.
  intros Hnames. revert l'.
  induction Hnames as [|c l [t ->] Hl IH]; intros l' Hsorted Hl'; cbn in Hl'.
  - injection Hl' as <-. repeat constructor.
  - destruct (String.ltb s t) eqn:E; cbn in Hl'.
    + injection Hl' as <-. constructor; [assumption|]. constructor.
      apply ltb_names_flip. cbn. now rewrite E.
    + destruct (insort (Str s) l) as [l0| |] eqn:E0; cbn in Hl';
        try discriminate.
      injection Hl' as <-. inversion Hsorted as [|? ? Htail Hhead]; subst.
      constructor; [now apply IH|].
      apply (insort_HdRel (Str s) _ l); [assumption| |assumption].
      cbn. now rewrite E.
Qed.

Lemma sorted_Sorted l l' :
  Forall (λ c, ∃ s, c = Str s) l →
  sorted l = Done l' →
  Sorted (λ a b, cell_ltb b a = Done false) l'.
Proof.
  intros Hnames. revert l'.
  induction Hnames as [|c l [s ->] Hl IH]; intros l' Hl'; cbn in Hl'.
  - injection Hl' as <-. constructor.
  - destruct (sorted l) as [l0| |] eqn:E; cbn in Hl'; try discriminate.
    apply (insort_Sorted s l0); [|now apply IH|assumption].
    apply Forall_forall. intros c Hc.
    rewrite (sorted_Permutation _ _ E) in Hc.
    rewrite Forall_forall in Hl. auto.
Qed.

(** Neighbours in order that are different names are in strict order. *)
Lemma Sorted_strict l :
  Forall (λ c, ∃ s, c = Str s) l →
  NoDup l →
  Sorted (λ a b, cell_ltb b a = Done false) l →
  Sorted (λ a b, cell_ltb a b = Done true) l.
Proof.
  intros Hnames Hnodup. induction 1 as [|a l Hl IH Hhd]; [constructor|].
  apply Forall_cons in Hnames as [[s ->] Hnames].
  apply NoDup_cons in Hnodup as [Hnotin Hnodup].
  constructor; [now apply IH|].
  destruct Hhd as [|b l Hba]; constructor.
  apply Forall_cons in Hnames as [[t ->] _].
  cbn in *. unfold String.ltb in *.
  rewrite (String.compare_antisym s t).
  destruct (t ?= s)%string eqn:E; cbn; try congruence.
  apply String.compare_eq_iff in E as ->. destruct Hnotin. left.
Qed.

Lemma unique_Forall (P : cell → Prop) l : Forall P l → Forall P (unique l).
Proof.
  rewrite !Forall_forall. intros Hl x Hx. now apply Hl, unique_subseteq.
Qed.

(** Property X3.
    Line 65 on a table whose provinces are names or null: the selector
    offers the sentinel first, then every name that some record carries,
    once each and no other value, in increasing order. *)
Theorem province_options df :
  has_column "Province" df = true →
  (∀ row, row ∈ rows df →
          row_get row "Province" = NA ∨ ∃ s, row_get row "Province" = Str s) →
  ∃ names,
    province_list df = Done (Str "All Provinces" :: names)
    ∧ NoDup names
    ∧ (∀ c, c ∈ names ↔
            c ≠ NA ∧ ∃ row, row ∈ rows df ∧ row_get row "Province" = c)
    ∧ Sorted (λ a b, cell_ltb a b = Done true) names.
Proof.
  intros Hcol Hkind. unfold province_list. rewrite column_Done by assumption.
  cbn. set (col := map (λ row, row_get row "Province") (rows df)).
  assert (Hnames : Forall (λ c, ∃ s, c = Str s) (List.filter notna col)).
  { apply Forall_forall.
    intros c [(row & <- & Hrow)%in_map_iff Hc]%list_elem_of_In%filter_In.
    destruct (Hkind row) as [E|E]; [now apply list_elem_of_In| |assumption].
    rewrite E in Hc. discriminate. }
  destruct (sorted_names _ (unique_Forall _ _ Hnames))
    as (names & Hsorted & Hall).
  exists names. rewrite Hsorted. split; [reflexivity|].
  pose proof (sorted_Permutation _ _ Hsorted) as Hperm.
  assert (Hnodup : NoDup names).
  { rewrite Hperm. now apply unique_names_NoDup. }
  split; [assumption|]. split.
  - intros c. rewrite Hperm. split.
    + intros Hc%unique_subseteq%list_elem_of_In%filter_In.
      destruct Hc as [(row & <- & Hrow)%in_map_iff Hc].
      split; [now apply notna_true|].
      exists row. split; [now apply list_elem_of_In|reflexivity].
    + intros (Hna & row & Hrow & <-).
      apply unique_names_elem; [assumption|].
      apply list_elem_of_In, filter_In. split; [|now apply notna_true].
      apply in_map_iff. exists row. split; [reflexivity|].
      now apply list_elem_of_In.
  - apply Sorted_strict; [assumption..|].
    apply (sorted_Sorted (unique (List.filter notna col)));
      [now apply unique_Forall|assumption].
Qed.

(** What the selector offers after the sentinel: non-null values that
    records of the table carry. *)
Lemma province_list_values df options c :
  has_column "Province" df = true →
  province_list df = Done options →
  c ∈ options →
  c = Str "All Provinces"
  ∨ (c ≠ NA ∧ ∃ row, row ∈ rows df ∧ row_get row "Province" = c).
Proof.
  intros Hcol Hoptions Hc. unfold province_list in Hoptions.
  rewrite column_Done in Hoptions by assumption. cbn in Hoptions.
  destruct (sorted _) as [names| |] eqn:Hsorted; cbn in Hoptions;
    try discriminate.
  injection Hoptions as <-. apply elem_of_cons in Hc as [->|Hc]; [now left|].
  right. rewrite (sorted_Permutation _ _ Hsorted) in Hc.
  apply unique_subseteq, list_elem_of_In, filter_In in Hc.
  destruct Hc as [(row & <- & Hrow)%in_map_iff Hc].
  split; [now apply notna_true|].
  exists row. split; [now apply list_elem_of_In|reflexivity].
Qed.

(** Property X4.
    Lines 65 to 70: every option of the selector shows at least one record
    of a table that has one, and an option other than the sentinel shows
    records of that province only. *)
Theorem offered_province_shows_records df options selected_province :
  has_column "Province" df = true →
  rows df ≠ [] →
  province_list df = Done options →
  selected_province ∈ options →
  ∃ filtered,
    filter_province selected_province df = Done filtered
    ∧ rows filtered ≠ []
    ∧ (selected_province ≠ Str "All Provinces" →
       ∀ row, row ∈ rows filtered →
              cell_eqb (row_get row "Province") selected_province = true).
Proof.
  intros Hcol Hrows Hoptions Hc.
  destruct (province_list_values _ _ _ Hcol Hoptions Hc)
    as [->|(Hna & row & Hrow & E)].
  - exists df. split; [apply filter_province_all|]. split; [assumption|done].
  - destruct (decide (cell_eqb selected_province (Str "All Provinces") = true))
      as [->%cell_eqb_sentinel|Hsel].
    { exists df. split; [apply filter_province_all|]. split; [assumption|done]. }
    assert (Hsel' : selected_province ≠ Str "All Provinces").
    { intros ->. now destruct Hsel. }
    eexists. split; [now apply filter_province_one|]. cbn [rows]. split.
    + intros Hnil.
      assert (Hin : row ∈ List.filter
                (λ row, cell_eqb (row_get row "Province") selected_province)
                (rows df)).
      { apply elem_of_filter. split; [assumption|].
        rewrite E. now apply cell_eqb_refl. }
      rewrite Hnil in Hin. now apply not_elem_of_nil in Hin.
    + intros _ row' Hrow'. now apply elem_of_filter in Hrow'.
Qed.

(** Property X5.
    Lines 65 to 70: a record whose province is null is offered under no
    province and shown under none; it is shown under the sentinel only. *)
Theorem null_province_under_sentinel_only df :
  has_column "Province" df = true →
  (∀ options, province_list df = Done options → NA ∉ options)
  ∧ (∀ selected_province filtered row,
       selected_province ≠ Str "All Provinces" →
       filter_province selected_province df = Done filtered →
       row ∈ rows filtered →
       row_get row "Province" ≠ NA)
  ∧ (∀ row, row ∈ rows df →
            ∃ filtered, filter_province (Str "All Provinces") df = Done filtered
                        ∧ row ∈ rows filtered).
Proof.
  intros Hcol. split; [|split].
  - intros options Hoptions Hna.
    destruct (province_list_values _ _ _ Hcol Hoptions Hna)
      as [|[Hne _]]; done.
  - intros sel filtered row Hsel Hfilter Hrow E.
    rewrite filter_province_one in Hfilter by assumption.
    injection Hfilter as <-. apply elem_of_filter in Hrow as [_ Heq].
    now rewrite E in Heq.
  - intros row Hrow. exists df. split; [apply filter_province_all|assumption].
Qed.

(** ** The province filter and the map *)

Lemma filter_filter_comm {A} (p q : A → bool) (l : list A) :
  List.filter p (List.filter q l) = List.filter q (List.filter p l).
Proof.
  induction l as [|x l IH]; [reflexivity|].
  cbn. destruct (p x) eqn:Ep, (q x) eqn:Eq; cbn; rewrite ?Ep, ?Eq; congruence.
Qed.

(** Property X6.
    Lines 68 to 74: filtering by province and keeping the located rows
    commute: the map of a province shows the records of that province among
    those of the map of all provinces. *)
Theorem province_map_within_full_map df selected_province filtered valid_coords :
  has_column "Province" df = true →
  has_column "lat" df = true →
  has_column "lon" df = true →
  filter_province selected_province df = Done filtered →
  valid_coords_of filtered = Done valid_coords →
  ∃ all_valid,
    valid_coords_of df = Done all_valid
    ∧ filter_province selected_province all_valid = Done valid_coords.
Proof.
  intros HP Hlat Hlon Hfilter Hvalid.
  rewrite valid_coords_of_Done by assumption. eexists. split; [reflexivity|].
  destruct (decide (cell_eqb selected_province (Str "All Provinces") = true))
    as [->%cell_eqb_sentinel|Hsel].
  - rewrite filter_province_all in *. injection Hfilter as <-.
    now rewrite valid_coords_of_Done in Hvalid by assumption.
  - assert (Hsel' : selected_province ≠ Str "All Provinces").
    { intros ->. now destruct Hsel. }
    rewrite filter_province_one in Hfilter by assumption.
    injection Hfilter as <-.
    rewrite valid_coords_of_Done in Hvalid by assumption.
    injection Hvalid as <-.
    rewrite filter_province_one by assumption. cbn [columns rows].
    now rewrite filter_filter_comm.
Qed.

(** ** Files without coordinate columns, without rows, without a required
    column *)





(** Property X8.
    Lines 53 to 62 on a file with the required columns and no data row: the
    script ends in the ValueError of line 54 when the file has a column
    besides the two required ones, and it stops at line 62, with no message,
    when it has exactly these two. *)
Theorem no_data_row file choice :
  has_column "Province" file = true →
  has_column "SubmissionDate" file = true →
  rows file = [] →
  app (Some file) choice =
  ([st_title "Submission Map & Timeline";
    st_sidebar_header "Upload Data File"],
   if (length (columns file) =? 2)%nat then Stop
   else Raise (ValueError "Length mismatch")).
Proof.
  intros HP HS Hrows. unfold app.
  destruct (Nat.eqb_spec (length (columns file)) 2) as [Hlen|Hlen].
  - destruct (load_data_rows file) as (df & -> & _ & Hall); auto.
    rewrite Hrows in Hall. apply Forall2_nil_inv_l in Hall.
    cbn. unfold empty. rewrite Hall. now destruct (columns df).
  - now rewrite load_data_no_row.
Qed.

(** Property X9.
    Lines 32 to 39 and 60 to 62 on a file that lacks a required column: the
    script shows one error, for Province when Province is absent, else for
    SubmissionDate, and stops before the selector and the three panels. *)
Theorem missing_column_reported file choice :
  has_column "Province" file && has_column "SubmissionDate" file = false →
  app (Some file) choice =
  ([st_title "Submission Map & Timeline";
    st_sidebar_header "Upload Data File";
    st_error (if has_column "Province" file
              then "The file must contain a 'SubmissionDate' column."
              else "The file must contain a 'Province' column.")],
   Stop).
Proof.
  intros Hmissing. unfold app.
  destruct (has_column "Province" file) eqn:HP; cbn in Hmissing.
  - now rewrite load_data_missing_date.
  - now rewrite load_data_missing_province.
Qed.

(** ** The timeline *)

Lemma bump_total k l :
  list_sum (map snd (bump k l)) = S (list_sum (map snd l)).
Proof.
  unfold list_sum. induction l as [|[k' c] l IH]; cbn; [reflexivity|].
  destruct (k <? k')%Z; [|destruct (k =? k')%Z]; cbn; [reflexivity..|].
  rewrite IH. lia.
Qed.

Lemma groupby_size_total keys :
  list_sum (map snd (groupby_size keys)) = length keys.
Proof.
  induction keys as [|k keys IH]; [reflexivity|].
  change (groupby_size (k :: keys)) with (bump k (groupby_size keys)).
  rewrite bump_total, IH. reflexivity.
Qed.

Lemma mapM_length {A B} (f : A → outcome B) (l : list A) (l' : list B) :
  mapM f l = Done l' → length l' = length l.
Proof.
  revert l'. induction l as [|x l IH]; intros l'; cbn.
  - now intros [= <-].
  - destruct (f x); cbn; try discriminate.
    destruct (mapM f l) as [l0| |]; cbn; try discriminate.
    intros [= <-]. cbn. f_equal. now apply IH.
Qed.

(** Property X10.
    Lines 78 to 83: whenever the timeline shows a chart, the counts of its
    lines add up to the number of records of the table with a non-null
    timestamp: every such record is counted once, on one day. *)
Theorem timeline_counts_every_record filtered page o times_by_date :
  has_column "SubmissionDate" filtered = true →
  timeline filtered = (page, o) →
  st_plotly_chart times_by_date ∈ page →
  list_sum (map snd times_by_date)
  = length (List.filter (λ row, notna (row_get row "SubmissionDate"))
              (rows filtered)).
Proof.
  intros HS Htimeline Hchart. rewrite timeline_unfold in Htimeline by assumption.
  destruct (existsb notna _).
  - destruct (mapM dt_date _) as [keys| |e] eqn:Hkeys;
      injection Htimeline as <- <-.
    + apply elem_of_cons in Hchart as [[=]|Hchart].
      apply elem_of_cons in Hchart as [[= ->]|[]%not_elem_of_nil].
      rewrite groupby_size_total, (mapM_length _ _ _ Hkeys).
      apply length_map.
    + apply elem_of_cons in Hchart as [[=]|[]%not_elem_of_nil].
    + apply elem_of_cons in Hchart as [[=]|[]%not_elem_of_nil].
  - injection Htimeline as <- <-.
    apply elem_of_cons in Hchart as [[=]|Hchart].
    apply elem_of_cons in Hchart as [[=]|[]%not_elem_of_nil].
Qed.

(** ** The map *)

Lemma nansum_raise l c :
  c ∈ l → ¬ numeric_or_null c →
  nansum l = Raise (TypeError "Could not convert to numeric").
Proof.
  induction l as [|a l IH]; [intros []%not_elem_of_nil|].
  intros [->|Hc]%elem_of_cons Hbad.
  - destruct a; cbn; try reflexivity; destruct Hbad; [now left|right; eauto].
  - destruct a; cbn; try reflexivity; rewrite IH by assumption; reflexivity.
Qed.

Lemma nansum_outcome l :
  (∃ total, nansum l = Done total)
  ∨ nansum l = Raise (TypeError "Could not convert to numeric").
Proof.
  induction l as [|a l IH]; cbn; [left; eauto|].
  destruct a; try (now right); [assumption|].
  destruct IH as [[total ->]| ->]; cbn; [left; eauto|now right].
Qed.

Lemma mean_raise l e : nansum l = Raise e → mean l = Raise e.
Proof. intros H. unfold mean. now rewrite H. Qed.

Lemma mean_of_sum l total :
  nansum l = Done total → ∃ center, mean l = Done center.
Proof. intros H. unfold mean. rewrite H. eexists. reflexivity. Qed.

(** Property X11.
    Lines 92 to 97: a record given to the map with a latitude or a longitude
    that is neither a number nor null, text say, makes the map raise
    TypeError after its header: neither the map nor the message that
    replaces it is shown. *)
Theorem text_coordinate_breaks_map valid_coords row :
  has_column "lat" valid_coords = true →
  has_column "lon" valid_coords = true →
  row ∈ rows valid_coords →
  ¬ numeric_or_null (row_get row "lat") ∨ ¬ numeric_or_null (row_get row "lon") →
  map_of_submissions valid_coords =
  ([st_header "Map of Submissions"],
   Raise (TypeError "Could not convert to numeric")).
Proof.
  intros Hlat Hlon Hrow Hbad.
  assert (Hempty : empty valid_coords = false).
  { unfold empty. apply has_column_true in Hlat.
    destruct (columns valid_coords); [now apply not_elem_of_nil in Hlat|].
    destruct (rows valid_coords); [now apply not_elem_of_nil in Hrow|done]. }
  unfold map_of_submissions. rewrite Hempty.
  rewrite (column_Done "lat"), bind_lift_Done by assumption.
  set (lats := map (λ row, row_get row "lat") (rows valid_coords)).
  set (lons := map (λ row, row_get row "lon") (rows valid_coords)).
  assert (Hin_lat : row_get row "lat" ∈ lats)
    by (apply list_elem_of_fmap; eauto).
  assert (Hin_lon : row_get row "lon" ∈ lons)
    by (apply list_elem_of_fmap; eauto).
  destruct (nansum_outcome lats) as [[total Htotal]|Hraise].
  - destruct Hbad as [Hbad|Hbad].
    { rewrite (nansum_raise lats _ Hin_lat Hbad) in Htotal. discriminate. }
    destruct (mean_of_sum lats total Htotal) as [center ->].
    rewrite bind_lift_Done.
    rewrite (column_Done "lon"), bind_lift_Done by assumption.
    fold lons.
    rewrite (mean_raise lons _ (nansum_raise lons _ Hin_lon Hbad)).
    reflexivity.
  - rewrite (mean_raise lats _ Hraise). reflexivity.
Qed.



(** ** A run that ends normally *)

Lemma bind_Done_inv {A B} (m : M A) (f : A → M B) page (b : B) :
  m ≫= f = (page, Done b) →
  ∃ p1 a p2, m = (p1, Done a) ∧ f a = (p2, Done b) ∧ page = (p1 ++ p2)%list.
Proof.
  destruct m as [p1 [a| |e]]; cbn; try discriminate.
  destruct (f a) as [p2 o] eqn:E. intros [= <- ->]. eauto 6.
Qed.

Lemma lift_Done_inv {A} (o : outcome A) page (a : A) :
  lift o = (page, Done a) → page = [] ∧ o = Done a.
Proof. unfold lift. now intros [= <- ->]. Qed.

Lemma empty_rows df k :
  has_column k df = true → empty df = true ↔ rows df = [].
Proof.
  intros Hk%has_column_true. unfold empty.
  destruct (columns df); [now apply not_elem_of_nil in Hk|].
  now destruct (rows df).
Qed.

(** Property X13.
    Lines 60 to 171: a run that ends normally shows, in this order, the
    selector, the timeline as a chart or as its message, the map as a deck
    over the located records or, when there is none, as its message, and the
    report as the success message when no record lacks coordinates or else
    as the count, the table and the download of the records that lack them.
    The located records and the records of the report are together the
    records of the selected province. *)
Theorem completed_run file choice page :
  app (Some file) choice = (page, Done tt) →
  ∃ df options filtered valid_coords missing_coords
    timeline_body map_body report_body,
    load_data file = ([], Done df)
    ∧ province_list df = Done options
    ∧ filter_province (nth choice options (hd NA options)) df = Done filtered
    ∧ valid_coords_of filtered = Done valid_coords
    ∧ missing_coords_of filtered = Done missing_coords
    ∧ (rows valid_coords ++ rows missing_coords)%list ≡ₚ rows filtered
    ∧ page =
      ([st_title "Submission Map & Timeline";
        st_sidebar_header "Upload Data File";
        st_sidebar_selectbox "Select Province" options;
        st_header "Submissions Over Time"; timeline_body;
        st_markdown "---";
        st_header "Map of Submissions"; map_body;
        st_header "Records with No GPS Points"] ++ report_body)%list
    ∧ ((∃ times_by_date, timeline_body = st_plotly_chart times_by_date)
       ∨ timeline_body = st_info "No valid SubmissionDate values found.")
    ∧ ((rows valid_coords ≠ []
        ∧ ∃ view_state, map_body = st_pydeck_chart valid_coords view_state)
       ∨ (rows valid_coords = []
          ∧ map_body =
            st_info "No valid GPS coordinates found for the selected province."))
    ∧ ((rows missing_coords = []
        ∧ report_body = [st_success "All records have GPS Points."])
       ∨ (rows missing_coords ≠ []
          ∧ report_body =
            [st_warning (pretty (length (rows missing_coords))
                         +:+ " records are missing GPS Points.");
             st_dataframe missing_coords;
             st_download_button "Download Records Missing GPS Points (CSV)"
               missing_coords "missing_gps.csv"])).
Proof.
  intros Happ. unfold app in Happ.
  apply bind_Done_inv in Happ as (p1 & [] & p2 & [= <-] & Happ & ->).
  apply bind_Done_inv in Happ as (p1 & [] & p3 & [= <-] & Happ & ->).
  apply bind_Done_inv in Happ as (p0 & df & p4 & Hload & Happ & ->).
  destruct (empty df) eqn:Hempty; [discriminate|].
  destruct (loaded_table _ _ _ Hload Hempty) as (HP & HS & Hlat & Hlon & _).
  destruct (load_data_Done _ _ _ Hload) as [[-> _]|(_ & _ & -> & _)];
    [discriminate|].
  apply bind_Done_inv in Happ as (p1 & options & p5 & Hoptions & Happ & ->).
  apply lift_Done_inv in Hoptions as [-> Hoptions].
  apply bind_Done_inv in Happ as (p1 & sel & p6 & [= <- <-] & Happ & ->).
  apply bind_Done_inv in Happ as (p1 & filtered & p7 & Hfilter & Happ & ->).
  apply lift_Done_inv in Hfilter as [-> Hfilter].
  apply bind_Done_inv in Happ as (p1 & valid & p8 & Hvalid & Happ & ->).
  apply lift_Done_inv in Hvalid as [-> Hvalid].
  apply bind_Done_inv in Happ as (p1 & missing & p9 & Hmissing & Happ & ->).
  apply lift_Done_inv in Hmissing as [-> Hmissing].
  apply bind_Done_inv in Happ as (pt & [] & p10 & Htimeline & Happ & ->).
  apply bind_Done_inv in Happ as (p1 & [] & p11 & [= <-] & Happ & ->).
  apply bind_Done_inv in Happ as (pm & [] & pr & Hmap & Hreport & ->).
  destruct (filter_province_rows _ _ _ HP Hfilter) as [Hcols _].
  assert (HS' : has_column "SubmissionDate" filtered = true)
    by (unfold has_column in *; now rewrite Hcols).
  assert (Hlat' : has_column "lat" filtered = true)
    by (unfold has_column in *; now rewrite Hcols).
  assert (Hlon' : has_column "lon" filtered = true)
    by (unfold has_column in *; now rewrite Hcols).
  pose proof Hvalid as Hvalid'. pose proof Hmissing as Hmissing'.
  rewrite valid_coords_of_Done in Hvalid' by assumption.
  rewrite missing_coords_of_Done in Hmissing' by assumption.
  injection Hvalid' as Evalid. injection Hmissing' as Emissing.
  assert (Hlat_v : has_column "lat" valid = true) by now rewrite <- Evalid.
  assert (Hlat_m : has_column "lat" missing = true) by now rewrite <- Emissing.
  (* the timeline *)
  rewrite timeline_unfold in Htimeline by assumption.
  assert (Ht : ∃ body, pt = [st_header "Submissions Over Time"; body]
            ∧ ((∃ times_by_date, body = st_plotly_chart times_by_date)
               ∨ body = st_info "No valid SubmissionDate values found.")).
  { destruct (existsb notna _).
    - destruct (mapM dt_date _); injection Htimeline as <-; try discriminate.
      eexists. split; [reflexivity|]. left. eauto.
    - injection Htimeline as <-. eexists. split; [reflexivity|]. now right. }
  destruct Ht as (timeline_body & -> & Ht).
  (* the map *)
  assert (Hm : ∃ body, pm = [st_header "Map of Submissions"; body]
            ∧ ((rows valid ≠ []
                ∧ ∃ view_state, body = st_pydeck_chart valid view_state)
               ∨ (rows valid = []
                  ∧ body = st_info
                      "No valid GPS coordinates found for the selected province."))).
  { unfold map_of_submissions in Hmap.
    destruct (empty valid) eqn:Hev.
    - injection Hmap as <-. eexists. split; [reflexivity|]. right.
      split; [now apply (empty_rows valid "lat")|reflexivity].
    - apply bind_Done_inv in Hmap as (q1 & [] & q2 & [= <-] & Hmap & ->).
      apply bind_Done_inv in Hmap as (q1 & lat & q3 & Hq & Hmap & ->).
      apply lift_Done_inv in Hq as [-> _].
      apply bind_Done_inv in Hmap as (q1 & clat & q4 & Hq & Hmap & ->).
      apply lift_Done_inv in Hq as [-> _].
      apply bind_Done_inv in Hmap as (q1 & lon & q5 & Hq & Hmap & ->).
      apply lift_Done_inv in Hq as [-> _].
      apply bind_Done_inv in Hmap as (q1 & clon & q6 & Hq & Hmap & ->).
      apply lift_Done_inv in Hq as [-> _].
      injection Hmap as <-. eexists. split; [reflexivity|]. left. split.
      + intros E. apply (empty_rows valid "lat") in E; [congruence|assumption].
      + eauto. }
  destruct Hm as (map_body & -> & Hm).
  (* the report *)
  assert (Hr : ∃ body, pr = st_header "Records with No GPS Points" :: body
            ∧ ((rows missing = []
                ∧ body = [st_success "All records have GPS Points."])
               ∨ (rows missing ≠ []
                  ∧ body =
                    [st_warning (pretty (length (rows missing))
                                 +:+ " records are missing GPS Points.");
                     st_dataframe missing;
                     st_download_button
                       "Download Records Missing GPS Points (CSV)"
                       missing "missing_gps.csv"]))).
  { unfold missing_report in Hreport.
    destruct (empty missing) eqn:Hem.
    - injection Hreport as <-. eexists. split; [reflexivity|]. left.
      split; [now apply (empty_rows missing "lat")|reflexivity].
    - injection Hreport as <-. eexists. split; [reflexivity|]. right.
      split; [|reflexivity].
      intros E. apply (empty_rows missing "lat") in E; [congruence|assumption]. }
  destruct Hr as (report_body & -> & Hr).
  exists df, options, filtered, valid, missing,
    timeline_body, map_body, report_body.
  repeat (split; [assumption || reflexivity|]).
  split.
  { rewrite <- Evalid, <- Emissing. cbn [rows]. apply filter_complement. }
  split; [reflexivity|]. auto.
Qed.

(** ** The timeline and the order of the records *)

Lemma bump_comm a b l : bump a (bump b l) = bump b (bump a l).
Proof.
  induction l as [|[k c] l IH]; cbn [bump];
    repeat (match goal with
            | |- context [(?x <? ?y)%Z] => destruct (Z.ltb_spec x y)
            | |- context [(?x =? ?y)%Z] => destruct (Z.eqb_spec x y)
            end; cbn [bump]);
    subst; try lia; try reflexivity.
  now rewrite IH.
Qed.

Lemma groupby_size_Permutation keys keys' :
  keys ≡ₚ keys' → groupby_size keys = groupby_size keys'.
Proof.
  unfold groupby_size.
  induction 1 as [|k l l' _ IH|k k' l|l l' l'' _ IH1 _ IH2]; cbn.
  - reflexivity.
  - now rewrite IH.
  - apply bump_comm.
  - congruence.
Qed.

Lemma filter_Permutation' {A} (p : A → bool) (l l' : list A) :
  l ≡ₚ l' → List.filter p l ≡ₚ List.filter p l'.
Proof.
  induction 1 as [|x l l' _ IH|x y l|l l' l'' _ IH1 _ IH2]; cbn.
  - reflexivity.
  - destruct (p x); now rewrite IH.
  - destruct (p x), (p y); try reflexivity. apply perm_swap.
  - now rewrite IH1.
Qed.

Lemma existsb_Permutation {A} (p : A → bool) (l l' : list A) :
  l ≡ₚ l' → existsb p l = existsb p l'.
Proof.
  induction 1 as [|x l l' _ IH|x y l|l l' l'' _ IH1 _ IH2]; cbn.
  - reflexivity.
  - now rewrite IH.
  - destruct (p x), (p y); reflexivity.
  - congruence.
Qed.

(** [.dt.date] over a column: the days when every value is a date/time,
    the AttributeError otherwise. *)
Lemma mapM_dt_date l :
  (Forall (λ c, ∃ t, c = Ts t) l
   ∧ mapM dt_date l
     = Done (map (λ c, match c with Ts t => date t | _ => 0%Z end) l))
  ∨ (¬ Forall (λ c, ∃ t, c = Ts t) l
     ∧ mapM dt_date l
       = Raise (AttributeError
                  "Can only use .dt accessor with datetimelike values")).
Proof.
  induction l as [|c l IH]; [left; split; [constructor|reflexivity]|].
  destruct c as [|q|s|t];
    try (right; split;
         [intros [[t [=]] _]%Forall_cons|reflexivity]).
  destruct IH as [[Hall E]|[Hnot E]]; cbn; rewrite E; cbn.
  - left. split; [|reflexivity]. constructor; eauto.
  - right. split; [|reflexivity]. now intros [_ ?]%Forall_cons.
Qed.

(** Property X14.
    Lines 78 to 85: the timeline of a table does not depend on the order of
    its records. *)
Theorem timeline_ignores_row_order filtered filtered' :
  has_column "SubmissionDate" filtered = true →
  columns filtered' = columns filtered →
  rows filtered' ≡ₚ rows filtered →
  timeline filtered' = timeline filtered.
Proof.
  intros HS Hcols Hperm.
  assert (HS' : has_column "SubmissionDate" filtered' = true)
    by (unfold has_column in *; now rewrite Hcols).
  rewrite !timeline_unfold by assumption.
  rewrite (existsb_Permutation notna
             (map (λ row, row_get row "SubmissionDate") (rows filtered'))
             (map (λ row, row_get row "SubmissionDate") (rows filtered)))
    by now apply Permutation_map.
  destruct (existsb notna _); [|reflexivity].
  assert (Hcol : map (λ row, row_get row "SubmissionDate")
                   (List.filter (λ row, notna (row_get row "SubmissionDate"))
                      (rows filtered'))
                 ≡ₚ map (λ row, row_get row "SubmissionDate")
                      (List.filter (λ row, notna (row_get row "SubmissionDate"))
                         (rows filtered)))
    by now apply Permutation_map, filter_Permutation'.
  destruct (mapM_dt_date (map (λ row, row_get row "SubmissionDate")
              (List.filter (λ row, notna (row_get row "SubmissionDate"))
                 (rows filtered')))) as [[Hall' ->]|[Hnot' ->]],
    (mapM_dt_date (map (λ row, row_get row "SubmissionDate")
       (List.filter (λ row, notna (row_get row "SubmissionDate"))
          (rows filtered)))) as [[Hall ->]|[Hnot ->]].
  - rewrite (groupby_size_Permutation _ _ (Permutation_map _ Hcol)).
    reflexivity.
  - destruct Hnot. now rewrite <- Hcol.
  - destruct Hnot'. now rewrite Hcol.
  - reflexivity.
Qed.

End Dashboard.

(** * The properties on the sample tables *)

Lemma load_example :
  load_data sample_parser example_table = ([], Done loaded_example).
Proof. vm_compute. reflexivity. Qed.

Lemma load_null_province :
  load_data sample_parser null_province = ([], Done loaded_null_province).
Proof. vm_compute. reflexivity. Qed.

(** The example of the specification: filtered to province A, one record
    on the map and none in the report; filtered to province B, none on the
    map and one record in the report. *)
Lemma example_filtered_to_A :
  ∃ filtered valid_coords missing_coords,
    filter_province (Str "A") loaded_example = Done filtered
    ∧ valid_coords_of filtered = Done valid_coords
    ∧ missing_coords_of filtered = Done missing_coords
    ∧ rows valid_coords = [loaded_row_A]
    ∧ rows missing_coords = [].
Proof. do 3 eexists. repeat split; vm_compute; reflexivity. Qed.

Lemma example_filtered_to_B :
  ∃ filtered valid_coords missing_coords,
    filter_province (Str "B") loaded_example = Done filtered
    ∧ valid_coords_of filtered = Done valid_coords
    ∧ missing_coords_of filtered = Done missing_coords
    ∧ rows valid_coords = []
    ∧ values missing_coords = [[Str "B"; NA; NA; NA; NA; Num 3; NA; NA]].
Proof. do 3 eexists. repeat split; vm_compute; reflexivity. Qed.

(** One run of the script on the example, with province A chosen. *)
Lemma example_run_A :
  app sample_parser (Some example_table) 1 =
  ([st_title "Submission Map & Timeline";
    st_sidebar_header "Upload Data File";
    st_sidebar_selectbox "Select Province"
      [Str "All Provinces"; Str "A"; Str "B"];
    st_header "Submissions Over Time";
    st_plotly_chart [(738886%Z, 1%nat)];
    st_markdown "---";
    st_header "Map of Submissions";
    st_pydeck_chart (mkDataFrame (columns loaded_example) [loaded_row_A])
      (mkViewState (Num 1) (Num 2) 6 0);
    st_header "Records with No GPS Points";
    st_success "All records have GPS Points."], Done tt).
Proof. vm_compute. reflexivity. Qed.

Lemma derived_pair_fallback_example :
  loaded_row_A !! "lat" = Some (Num 1) ∧ loaded_row_A !! "lon" = Some (Num 2).
Proof.
  apply (derived_pair_fallback sample_parser example_table [] loaded_example
           loaded_row_A).
  - vm_compute. reflexivity.
  - left.
  - vm_compute. discriminate.
  - vm_compute. discriminate.
Defined.

Lemma valid_missing_partition_example :
  ∃ valid_coords missing_coords,
    valid_coords_of loaded_example = Done valid_coords
    ∧ missing_coords_of loaded_example = Done missing_coords
    ∧ (length (positions valid_coords) + length (rows missing_coords) = 2)%nat.
Proof.
  destruct (valid_missing_partition loaded_example)
    as (v & m & Hv & Hm & _ & _ & _ & _ & Hlen).
  - vm_compute. reflexivity.
  - vm_compute. reflexivity.
  - exists v, m. auto.
Defined.

Lemma filter_by_category_example :
  ∃ filtered,
    filter_province (Str "A") loaded_example = Done filtered
    ∧ columns filtered = columns loaded_example
    ∧ ∀ row, row ∈ rows filtered ↔
             row ∈ rows loaded_example
             ∧ cell_eqb (row_get row "Province") (Str "A") = true.
Proof.
  destruct (filter_by_category (Str "A") loaded_example) as [Hone _].
  - vm_compute. reflexivity.
  - destruct Hone as (filtered & Hf & Hcols & _ & Hrows & _).
    + discriminate.
    + exists filtered. auto.
Defined.

(** Claim C5 as stated fails: the table [null_province] loads, and the
    category of its one record is null; so it is not true that every record
    of a loaded table has a non-null category. *)
Lemma null_category_is_loaded :
  load_data sample_parser null_province = ([], Done loaded_null_province)
  ∧ (∃ row, row ∈ rows loaded_null_province ∧ row_get row "Province" = NA)
  ∧ ¬ (∀ parse_datetime file page df row,
         load_data parse_datetime file = (page, Done df) →
         row ∈ rows df →
         row_get row "Province" ≠ NA).
Proof.
  split; [apply load_null_province|]. split.
  - eexists. split; [left|]. vm_compute. reflexivity.
  - intros Hclaim.
    apply (Hclaim sample_parser null_province [] loaded_null_province
             (record [("Province", NA);
                      ("SubmissionDate", Ts (mkTimestamp 738886 0));
                      ("lat", NA); ("lon", NA)])).
    + apply load_null_province.
    + left.
    + vm_compute. reflexivity.
Qed.

Lemma one_category_one_pair_example :
  (∃ row, rows example_table !! 1%nat = Some row
          ∧ loaded_row_B !! "Province" = row !! "Province")
  ∧ ((loaded_row_B !! "lat" = Some (row_get loaded_row_B "Geopoint1-Latitude")
      ∧ loaded_row_B !! "lon" = Some (row_get loaded_row_B "Geopoint1-Longitude"))
     ∨ (loaded_row_B !! "lat" = Some (row_get loaded_row_B "geopoint-Latitude")
        ∧ loaded_row_B !! "lon" = Some (row_get loaded_row_B "geopoint-Longitude"))
     ∨ (loaded_row_B !! "lat" = Some NA ∧ loaded_row_B !! "lon" = Some NA)).
Proof.
  apply (one_category_one_pair sample_parser example_table [] loaded_example
           1%nat loaded_row_B).
  - vm_compute. reflexivity.
  - reflexivity.
Defined.

Lemma timeline_by_day_example :
  ∃ times_by_date,
    timeline loaded_example =
    ([st_header "Submissions Over Time"; st_plotly_chart times_by_date],
     Done tt)
    ∧ chronological times_by_date
    ∧ (738886%Z, 1%nat) ∈ times_by_date.
Proof.
  destruct (timeline_by_day sample_parser example_table [] loaded_example
              (Str "All Provinces") loaded_example) as [Hchart _].
  - vm_compute. reflexivity.
  - reflexivity.
  - reflexivity.
  - destruct Hchart as (times_by_date & Htimeline & Hsorted & Hlines).
    + exists loaded_row_A. split; [left|]. vm_compute. discriminate.
    + exists times_by_date. split; [assumption|]. split; [assumption|].
      apply Hlines. split; [discriminate|]. vm_compute. reflexivity.
Defined.

Lemma timestamps_coerced_example :
  ∃ df row',
    load_data sample_parser example_table = ([], Done df)
    ∧ rows df !! 0%nat = Some row'
    ∧ row' !! "SubmissionDate" = Some (Ts (mkTimestamp 738886 0)).
Proof.
  destruct (timestamps_coerced sample_parser example_table 0%nat
              (record [("Province", Str "A"); ("SubmissionDate", Str "2024-01-01");
                       ("Geopoint1-Latitude", Num 1);
                       ("Geopoint1-Longitude", Num 2);
                       ("geopoint-Latitude", NA); ("geopoint-Longitude", NA)]))
    as (df & row' & Hload & _ & Hrow' & _ & Hparsed & _).
  - vm_compute. reflexivity.
  - vm_compute. reflexivity.
  - reflexivity.
  - exists df, row'. split; [assumption|]. split; [assumption|].
    apply (Hparsed "2024-01-01"); vm_compute; reflexivity.
Defined.

Lemma map_centered_at_mean_example :
  map_of_submissions two_points =
  ([st_header "Map of Submissions";
    st_pydeck_chart two_points
      (mkViewState (Num ((1 + (2 + 0)) / inject_Z 2))
                   (Num ((10 + (20 + 0)) / inject_Z 2)) 6 0)], Done tt).
Proof.
  destruct (map_centered_at_mean two_points [1%Q; 2%Q] [10%Q; 20%Q])
    as [Hmap _].
  - vm_compute. reflexivity.
  - vm_compute. reflexivity.
  - vm_compute. reflexivity.
  - vm_compute. reflexivity.
  - destruct Hmap as [Hmap _]; [discriminate|]. exact Hmap.
Defined.

Lemma load_data_frame_example :
  columns loaded_example = (columns example_table ++ ["lat"; "lon"])%list
  ∧ length (rows loaded_example) = length (rows example_table).
Proof.
  destruct (load_data_frame sample_parser example_table [] loaded_example)
    as (Hcols & Hlen & _).
  - vm_compute. reflexivity.
  - vm_compute. reflexivity.
  - apply not_elem_of_labels. reflexivity.
  - apply not_elem_of_labels. reflexivity.
  - vm_compute. reflexivity.
  - split; assumption.
Defined.

(** * The further properties on the sample tables *)

Lemma province_options_example :
  ∃ names,
    province_list loaded_example = Done (Str "All Provinces" :: names)
    ∧ NoDup names
    ∧ Sorted (λ a b, cell_ltb a b = Done true) names.
Proof.
  destruct (province_options loaded_example)
    as (names & Hlist & Hnodup & _ & Hsorted).
  - vm_compute. reflexivity.
  - intros row Hrow.
    repeat (apply elem_of_cons in Hrow as [->|Hrow]);
      [vm_compute; eauto..|now apply not_elem_of_nil in Hrow].
  - exists names. auto.
Defined.

Lemma load_mixed_provinces :
  load_data sample_parser mixed_provinces = ([], Done loaded_mixed_provinces).
Proof. vm_compute. reflexivity. Qed.

Lemma mixed_provinces_raise_example :
  app sample_parser (Some mixed_provinces) 0 =
  ([st_title "Submission Map & Timeline";
    st_sidebar_header "Upload Data File"],
   Raise (TypeError "'<' not supported")).
Proof.
  apply (mixed_provinces_raise sample_parser mixed_provinces []
           loaded_mixed_provinces 0
           (record [("Province", Str "A"); ("SubmissionDate", NA);
                    ("lat", NA); ("lon", NA)])
           (record [("Province", Num 7); ("SubmissionDate", NA);
                    ("lat", NA); ("lon", NA)])).
  - vm_compute. reflexivity.
  - left.
  - right. left.
  - vm_compute. discriminate.
  - vm_compute. discriminate.
  - vm_compute. discriminate.
Defined.

Lemma offered_province_shows_records_example :
  ∃ filtered,
    filter_province (Str "B") loaded_example = Done filtered
    ∧ rows filtered ≠ [].
Proof.
  destruct (offered_province_shows_records loaded_example
              [Str "All Provinces"; Str "A"; Str "B"] (Str "B"))
    as (filtered & Hfilter & Hrows & _).
  - vm_compute. reflexivity.
  - discriminate.
  - vm_compute. reflexivity.
  - right. right. left.
  - exists filtered. auto.
Defined.

Lemma null_province_under_sentinel_only_example :
  NA ∉ [Str "All Provinces"; Str "A"; Str "B"].
Proof.
  destruct (null_province_under_sentinel_only loaded_example) as [Hoptions _].
  - vm_compute. reflexivity.
  - apply Hoptions. vm_compute. reflexivity.
Defined.

Lemma province_map_within_full_map_example :
  ∃ all_valid,
    valid_coords_of loaded_example = Done all_valid
    ∧ filter_province (Str "A") all_valid
      = Done (mkDataFrame (columns loaded_example) [loaded_row_A]).
Proof.
  apply (province_map_within_full_map loaded_example (Str "A")
           (mkDataFrame (columns loaded_example) [loaded_row_A])).
  - vm_compute. reflexivity.
  - vm_compute. reflexivity.
  - vm_compute. reflexivity.
  - vm_compute. reflexivity.
  - vm_compute. reflexivity.
Defined.


Lemma no_data_row_example :
  app sample_parser (Some two_columns_no_row) 0 =
  ([st_title "Submission Map & Timeline";
    st_sidebar_header "Upload Data File"], Stop).
Proof.
  apply (no_data_row sample_parser two_columns_no_row 0).
  - vm_compute. reflexivity.
  - vm_compute. reflexivity.
  - reflexivity.
Defined.

Lemma missing_column_reported_example :
  app sample_parser (Some lacking_date) 0 =
  ([st_title "Submission Map & Timeline";
    st_sidebar_header "Upload Data File";
    st_error "The file must contain a 'SubmissionDate' column."], Stop).
Proof.
  apply (missing_column_reported sample_parser lacking_date 0).
  vm_compute. reflexivity.
Defined.

Lemma timeline_counts_every_record_example :
  list_sum (map snd [(738886%Z, 1%nat)]) = 1%nat.
Proof.
  apply (timeline_counts_every_record loaded_example
           [st_header "Submissions Over Time";
            st_plotly_chart [(738886%Z, 1%nat)]] (Done tt)).
  - vm_compute. reflexivity.
  - vm_compute. reflexivity.
  - right. left.
Defined.

Lemma text_coordinate_breaks_map_example :
  map_of_submissions text_points =
  ([st_header "Map of Submissions"],
   Raise (TypeError "Could not convert to numeric")).
Proof.
  apply (text_coordinate_breaks_map text_points text_point).
  - vm_compute. reflexivity.
  - vm_compute. reflexivity.
  - left.
  - left. vm_compute. intros [E|[q E]]; discriminate.
Defined.


Lemma completed_run_example :
  ∃ options filtered valid_coords missing_coords,
    province_list loaded_example = Done options
    ∧ filter_province (nth 1 options (hd NA options)) loaded_example
      = Done filtered
    ∧ valid_coords_of filtered = Done valid_coords
    ∧ missing_coords_of filtered = Done missing_coords
    ∧ (rows valid_coords ++ rows missing_coords)%list ≡ₚ rows filtered.
Proof.
  destruct (completed_run sample_parser example_table 1 _ example_run_A)
    as (df & options & filtered & valid_coords & missing_coords & _ & _ & _
        & Hload & Hoptions & Hfilter & Hvalid & Hmissing & Hperm & _).
  rewrite load_example in Hload. injection Hload as <-.
  exists options, filtered, valid_coords, missing_coords. auto.
Defined.

Lemma timeline_ignores_row_order_example :
  timeline loaded_example_reversed = timeline loaded_example.
Proof.
  apply timeline_ignores_row_order.
  - vm_compute. reflexivity.
  - reflexivity.
  - apply perm_swap.
Defined.

